(** * JalaramOrder: the document pipeline of [app.py]

    A shallow embedding of the Streamlit application [app.py]: the three
    fallback ("demo mode") automation functions, the session state and the
    store selector of the sidebar, the order handler of tab 1 with its activity
    log, the column-mapping form of tab 2, and the single-invoice handler and
    the batch conversion loop with its ZIP packaging of tab 3.

    Python strings are [string]; a Python [dict] keyed by column names is a
    [gmap string _]; code that sleeps, raises or catches is written in a small
    state-and-exception monad [Py] over the [World]. *)

From Stdlib Require Import Ascii String QArith.
From stdpp Require Import base strings list gmap.

Close Scope Q_scope.
Open Scope string_scope.
Open Scope nat_scope.
Open Scope list_scope.
Open Scope stdpp_scope.

(** ** Strings *)

(** The line terminator ["\n"]. *)
Definition nl : string := String "010"%char EmptyString.

(** [s.split(sep)] for a one-character separator. *)
Fixpoint split_on (sep : ascii) (s : string) : list string :=
  match s with
  | EmptyString => [EmptyString]
  | String c s' =>
      if Ascii.eqb c sep then EmptyString :: split_on sep s'
      else match split_on sep s' with
           | [] => [String c EmptyString]
           | field :: fields => String c field :: fields
           end
  end.

(** [s.find(sub)]: the index of the first occurrence, [None] for Python's -1. *)
Fixpoint str_find (sub s : string) : option nat :=
  if String.prefix sub s then Some 0
  else match s with
       | EmptyString => None
       | String _ s' => S <$> str_find sub s'
       end.

(** The scan of [str.replace] for a non-empty [old]: occurrences are replaced
    from left to right and do not overlap; [skip] counts the characters of
    the occurrence just replaced that are still to be passed over. *)
Fixpoint replace_go (old new : string) (skip : nat) (s : string) : string :=
  match s with
  | EmptyString => EmptyString
  | String c s' =>
      match skip with
      | S k => replace_go old new k s'
      | O =>
          if String.prefix old s
          then new +:+ replace_go old new (String.length old - 1) s'
          else String c (replace_go old new 0 s')
      end
  end.

(** With an empty [old], [str.replace] puts [new] around every character. *)
Fixpoint intersperse_after (new s : string) : string :=
  match s with
  | EmptyString => EmptyString
  | String c s' => String c (new +:+ intersperse_after new s')
  end.

(** [s.replace(old, new)]. *)
Definition str_replace (old new s : string) : string :=
  match old with
  | EmptyString => new +:+ intersperse_after new s
  | String _ _ => replace_go old new 0 s
  end.

Definition is_digit (c : ascii) : bool :=
  (Ascii.leb "0" c && Ascii.leb c "9")%bool.

Fixpoint string_forallb (p : ascii -> bool) (s : string) : bool :=
  match s with
  | EmptyString => true
  | String c s' => (p c && string_forallb p s')%bool
  end.

(** A non-empty run of decimal digits. *)
Definition all_digits (s : string) : bool :=
  (negb (String.eqb s EmptyString) && string_forallb is_digit s)%bool.


(** ** Effects: the world, exceptions and the [Py] monad *)

(** What the modelled code can observe or change outside its arguments:
    the wall clock, advanced by [time.sleep]. *)
Record World := { clock : nat }.

(** A Python exception: its class name and [str(e)]. *)
Record Exception := { exc_type : string; str : string }.

Inductive outcome (A : Type) : Type :=
| Returned (a : A)
| Raised (e : Exception).
Arguments Returned {A} a.
Arguments Raised {A} e.

Definition Py (A : Type) : Type := World -> outcome A * World.

Definition ret {A} (a : A) : Py A := fun w => (Returned a, w).

Definition bind {A B} (m : Py A) (k : A -> Py B) : Py B :=
  fun w =>
    match m w with
    | (Returned a, w') => k a w'
    | (Raised e, w') => (Raised e, w')
    end.

Definition raise {A} (e : Exception) : Py A := fun w => (Raised e, w).

(** [try: body  except Exception as e: handler e]. *)
Definition try_except {A} (body : Py A) (handler : Exception -> Py A) : Py A :=
  fun w =>
    match body w with
    | (Returned a, w') => (Returned a, w')
    | (Raised e, w') => handler e w'
    end.

(** [time.sleep(secs)]. *)
Definition sleep (secs : nat) : Py unit :=
  fun w => (Returned tt, {| clock := clock w + secs |}).

Declare Scope py_scope.
Delimit Scope py_scope with py.
Notation "x <- m ;; k" := (bind m (fun x => k))
  (at level 100, m at next level, right associativity) : py_scope.
Notation "m ;; k" := (bind m (fun _ => k))
  (at level 100, right associativity) : py_scope.
Open Scope py_scope.

(** ** Uploaded files and tables *)

(** A Streamlit [UploadedFile]: its [name] and its bytes. *)
Record UploadedFile := { name : string; getvalue : list Byte.byte }.

Inductive Cell : Type :=
| CStr (s : string)
| CInt (z : Z).

(** A pandas [DataFrame] built from a dict of columns: the named columns in
    order, each with one cell per row. *)
Abbreviation DataFrame := (list (string * list Cell)).

(** [df.columns]. *)
Definition df_columns (df : DataFrame) : list string := df.*1.

(** [len(df)], the number of rows. *)
Definition df_len (df : DataFrame) : nat :=
  match df with
  | [] => 0
  | (_, column) :: _ => length column
  end.

(** ** The fallback automation functions (lines 28-41) *)

Module Demo.

(** [auto_fill_supplier_order], "Dummy function for Task 1". *)
Definition auto_fill_supplier_order
    (excel_file : UploadedFile) (supplier_name store_id : string) : Py string :=
  sleep 1 ;;
  ret ("Order for " +:+ supplier_name +:+ " (Store: " +:+ store_id
       +:+ ") processed successfully.").

(** The frame returned by the fallback [process_supplier_excel]. *)
Definition demo_frame : DataFrame :=
  [ ("Item", [CStr "Demo1"; CStr "Demo2"]);
    ("Quantity", [CInt 10; CInt 20]) ].

(** [process_supplier_excel], "Dummy function for Task 2". *)
Definition process_supplier_excel
    (input_file : UploadedFile) (output_format : string) : Py DataFrame :=
  sleep 1 ;;
  ret demo_frame.

(** The text returned by the fallback [convert_pdf_to_ecrs]. *)
Definition invoice_text : string :=
  "INVOICE_DATA" +:+ nl +:+ "ITEM1,10,100" +:+ nl +:+ "ITEM2,5,200".

(** [convert_pdf_to_ecrs], "Dummy function for Task 3". *)
Definition convert_pdf_to_ecrs
    (pdf_file : UploadedFile) (store_id supplier_name : string) : Py string :=
  sleep 1 ;;
  ret invoice_text.

End Demo.

(** ** The ECRS Standard format, as the specification words it (section 6)

    These predicates follow the specification, not the code; the output of
    the code is compared against them. *)

Module EcrsSpec.

(** "numeric fields formatted with exactly two decimal places, no currency
    symbols, no thousands separators": digits, a period, two digits. *)
Definition two_decimals (field : string) : bool :=
  match split_on "." field with
  | [whole; frac] =>
      (all_digits whole && all_digits frac && Nat.eqb (String.length frac) 2)%bool
  | _ => false
  end.

(** Standard variant: [<description>,<quantity>,<unitPrice>]. *)
Definition standard_record (line : string) : bool :=
  match split_on "," line with
  | [_; quantity; unit_price] =>
      (two_decimals quantity && two_decimals unit_price)%bool
  | _ => false
  end.

(** "one record per line ... line terminator \n": splitting at newlines
    leaves the records followed by one empty piece. *)
Fixpoint terminated_records (pieces : list string) : bool :=
  match pieces with
  | [] => false
  | [final] => String.eqb final EmptyString
  | line :: rest => (standard_record line && terminated_records rest)%bool
  end.

Definition standard_text (txt : string) : bool :=
  terminated_records (split_on "010" txt).

End EcrsSpec.

(** What the fallback emits instead: a record whose numeric fields are plain
    runs of digits. *)
Definition integer_record (line : string) : bool :=
  match split_on "," line with
  | [_; quantity; unit_price] => (all_digits quantity && all_digits unit_price)%bool
  | _ => false
  end.

(** ** Tab 2: column mapping and format conversion (lines 203-280) *)

(** The options of the "Map '<col>' to:" select box. *)
Inductive MapTarget : Type :=
| ItemName | Quantity | Price | SKU | Unit | Ignore.

#[global] Instance MapTarget_eq_dec : EqDecision MapTarget.
Proof. solve_decision. Defined.

Definition target_label (t : MapTarget) : string :=
  match t with
  | ItemName => "Item Name"
  | Quantity => "Quantity"
  | Price => "Price"
  | SKU => "SKU"
  | Unit => "Unit"
  | Ignore => "Ignore"
  end.

(** [st.session_state], as far as tab 2 writes it. *)
Record SessionState := { column_mapping : option (gmap string MapTarget) }.

(** What the "Convert Format" button shows. *)
Inductive Tab2Shown : Type :=
| Converted (processed_df : DataFrame)
| ConversionFailed (message : string)
| PleaseUpload.

(** The fields that a mapping assigns, [Ignore] left out; the specification
    calls a mapping valid when no field occurs twice here. *)
Definition mapped_targets (mapping : gmap string MapTarget) : list MapTarget :=
  filter (fun t => t <> Ignore) (map_to_list mapping).*2.

Section Tab2.

(** [pd.read_excel]. *)
Variable read_excel : UploadedFile -> Py DataFrame.

(** The user's choice in the select box with key ["map_" + col]. *)
Variable selectbox : string -> MapTarget.

(** Lines 227-233: [mapping = {}] and one [mapping[col] = ...] per column. *)
Definition build_mapping (cols : list string) : gmap string MapTarget :=
  fold_left (fun mapping col => <[col := selectbox col]> mapping) cols ∅.

(** Lines 218-237: preview the upload and store the mapping. *)
Definition tab2_upload (uploaded_excel : UploadedFile) (ss : SessionState)
  : Py SessionState :=
  try_except
    (df <- read_excel uploaded_excel ;;
     if (0 <? length (df_columns df))%nat
     then ret {| column_mapping := Some (build_mapping (df_columns df)) |}
     else ret ss)
    (fun e => ret ss).

(** Lines 249-280: the "Convert Format" button, in demo mode, up to the
    display of the converted frame (its serialisation for the download button
    is left out).  The session state is in reach of the handler, which does
    not read it. *)
Definition tab2_convert (uploaded_excel : option UploadedFile)
    (output_format : string) (ss : SessionState) : Py Tab2Shown :=
  match uploaded_excel with
  | Some input_file =>
      try_except
        (processed_df <- Demo.process_supplier_excel input_file output_format ;;
         ret (Converted processed_df))
        (fun e => ret (ConversionFailed ("Conversion failed: " +:+ str e)))
  | None => ret PleaseUpload
  end.

End Tab2.

(** ** Tab 3: batch conversion and ZIP packaging (lines 359-393) *)

(** The archive under construction: its entries, in the order written.
    [zipfile] keeps entries with equal names side by side. *)
Abbreviation ZipFile := (list (string * string)).

(** [zip_file.writestr(arcname, data)]. *)
Definition writestr (zip_file : ZipFile) (arcname data : string) : ZipFile :=
  zip_file ++ [(arcname, data)].

(** Lines 383-386. *)
Definition make_zip (results : list (string * string)) : ZipFile :=
  fold_left
    (fun zip_file '(filename, content) =>
       writestr zip_file (str_replace ".pdf" ".txt" filename) content)
    results [].

(** The loop's variables: the [results] list and the values the progress bar
    has been given, oldest first. *)
Record BatchState := {
  results : list (string * string);
  progress_bar : list Q
}.

Definition append_result (st : BatchState) (entry : string * string) : BatchState :=
  {| results := results st ++ [entry]; progress_bar := progress_bar st |}.

Definition set_progress (st : BatchState) (value : Q) : BatchState :=
  {| results := results st; progress_bar := progress_bar st ++ [value] |}.

(** [for i, x in enumerate(xs): st = body st i x], counting from [i]. *)
Fixpoint for_enumerate {A St : Type} (body : St -> nat -> A -> Py St)
    (i : nat) (xs : list A) (st : St) : Py St :=
  match xs with
  | [] => ret st
  | x :: xs' => st' <- body st i x ;; for_enumerate body (S i) xs' st'
  end.

Definition ZeroDivisionError : Exception :=
  {| exc_type := "ZeroDivisionError"; str := "division by zero" |}.

Section Tab3.

(** Whichever [convert_pdf_to_ecrs] the import at lines 17-41 bound. *)
Variable convert_pdf_to_ecrs : UploadedFile -> string -> string -> Py string.

(** Rounding of a rational to the nearest float. *)
Variable fl : Q -> Q.

Variables selected_store invoice_supplier : string.

(** The float nearest to the quotient of two ints. *)
Definition float_quotient (a b : nat) : Q :=
  fl (inject_Z (Z.of_nat a) / inject_Z (Z.of_nat b))%Q.

(** [a / b] on two ints. *)
Definition truediv (a b : nat) : Py Q :=
  if Nat.eqb b 0 then raise ZeroDivisionError
  else ret (float_quotient a b).

(** Lines 365-375, with [n = len(multiple_files)]. *)
Definition batch_body (n : nat) (st : BatchState) (i : nat)
    (pdf_file : UploadedFile) : Py BatchState :=
  st1 <- try_except
           (txt_content <-
              convert_pdf_to_ecrs pdf_file selected_store invoice_supplier ;;
            ret (append_result st (name pdf_file, txt_content)))
           (fun e =>
              ret (append_result st (name pdf_file, "ERROR: " +:+ str e))) ;;
  value <- truediv (i + 1) n ;;
  ret (set_progress st1 value).

(** Lines 361-375. *)
Definition batch_convert (multiple_files : list UploadedFile) : Py BatchState :=
  for_enumerate (batch_body (length multiple_files)) 0 multiple_files
    {| results := []; progress_bar := [0%Q] |}.

(** Lines 361-386: the handler of the "Convert N Invoices" button. *)
Definition tab3_batch (multiple_files : list UploadedFile)
  : Py (BatchState * ZipFile) :=
  st <- batch_convert multiple_files ;;
  ret (st, make_zip (results st)).

(** The entry that the loop body appends for a document, from the outcome of
    its conversion. *)
Definition entry_of (pdf_file : UploadedFile) (o : outcome string)
  : string * string :=
  match o with
  | Returned txt_content => (name pdf_file, txt_content)
  | Raised e => (name pdf_file, "ERROR: " +:+ str e)
  end.

(** The outcomes of converting the documents one after the other, and the
    world left behind. *)
Fixpoint conversions (docs : list UploadedFile) (w : World)
  : list (outcome string) * World :=
  match docs with
  | [] => ([], w)
  | pdf_file :: docs' =>
      let '(o, w1) :=
        convert_pdf_to_ecrs pdf_file selected_store invoice_supplier w in
      let '(os, w2) := conversions docs' w1 in
      (o :: os, w2)
  end.

End Tab3.

(** ** Sample inputs *)

Module Sample.

(** The first bytes of a PDF file, ["%PDF"]. *)
Definition pdf_magic : list Byte.byte :=
  [Byte.x25; Byte.x50; Byte.x44; Byte.x46].

Definition is_pdf (bytes : list Byte.byte) : bool :=
  match bytes with
  | Byte.x25 :: Byte.x50 :: Byte.x44 :: Byte.x46 :: _ => true
  | _ => false
  end.

(** A converter that, unlike the fallback, opens its document: it raises on
    bytes that do not start a PDF. *)
Definition strict_convert (pdf_file : UploadedFile)
    (store_id supplier_name : string) : Py string :=
  if is_pdf (getvalue pdf_file)
  then Demo.convert_pdf_to_ecrs pdf_file store_id supplier_name
  else raise {| exc_type := "CorruptDocument";
                str := "cannot open " +:+ name pdf_file |}.

Definition doc1 : UploadedFile :=
  {| name := "doc1.pdf"; getvalue := pdf_magic ++ [Byte.x2d; Byte.x31] |}.
Definition doc2 : UploadedFile :=
  {| name := "doc2.pdf"; getvalue := [Byte.x00; Byte.x01] |}.
Definition doc3 : UploadedFile :=
  {| name := "doc3.pdf"; getvalue := pdf_magic ++ [Byte.x2d; Byte.x33] |}.

(** The bytes of [doc1] under another name. *)
Definition doc1_copy : UploadedFile :=
  {| name := "copy of doc1.pdf"; getvalue := getvalue doc1 |}.

(** A name in which [".pdf"] occurs before the extension too. *)
Definition summary_doc : UploadedFile :=
  {| name := "q3.pdf.summary.pdf"; getvalue := pdf_magic |}.

(** The batch loop and the button handler over [strict_convert], with exact
    quotients. *)
Definition batch : list UploadedFile -> Py BatchState :=
  batch_convert strict_convert (fun q => q) "STORE001" "Supplier A".

Definition handler : list UploadedFile -> Py (BatchState * ZipFile) :=
  tab3_batch strict_convert (fun q => q) "STORE001" "Supplier A".

(** An invoice whose text is the line [Milk 2 3.00]. *)
Definition milk_pdf : UploadedFile :=
  {| name := "milk.pdf";
     getvalue := pdf_magic ++ list_byte_of_string "Milk 2 3.00" |}.

Definition w0 : World := {| clock := 0 |}.

(** A supplier sheet with three rows. *)
Definition supplier_sheet : DataFrame :=
  [ ("Item", [CStr "Apple"; CStr "Banana"; CStr "Cherry"]);
    ("Qty", [CInt 10; CInt 4; CInt 7]);
    ("Cost", [CStr "1.50"; CStr "0.75"; CStr "3.20"]) ].

Definition supplier_xlsx : UploadedFile :=
  {| name := "supplier.xlsx"; getvalue := [Byte.x50; Byte.x4b] |}.

Definition read_supplier_sheet (f : UploadedFile) : Py DataFrame :=
  ret supplier_sheet.

(** One field per column. *)
Definition choose_distinct (col : string) : MapTarget :=
  if String.eqb col "Item" then ItemName
  else if String.eqb col "Qty" then Quantity
  else if String.eqb col "Cost" then Price
  else Ignore.

(** A sheet with the columns [A] and [B], both mapped to Quantity. *)
Definition ab_sheet : DataFrame :=
  [ ("A", [CInt 1; CInt 2]); ("B", [CInt 3; CInt 4]) ].

Definition read_ab_sheet (f : UploadedFile) : Py DataFrame := ret ab_sheet.

Definition choose_quantity (col : string) : MapTarget := Quantity.

Definition no_session : SessionState := {| column_mapping := None |}.

End Sample.

(** ** Session state and sidebar (lines 44-93) *)

(** The values the application keeps under [st.session_state]. *)
Inductive StateValue : Type :=
| VNone
| VInt (z : Z)
| VStr (s : string)
| VFiles (files : list (string * UploadedFile)).

(** [if key not in st.session_state: st.session_state[key] = default]. *)
Definition init_key (key : string) (default : StateValue)
    (ss : gmap string StateValue) : gmap string StateValue :=
  match ss !! key with
  | Some _ => ss
  | None => <[key := default]> ss
  end.

(** Lines 44-49. *)
Definition init_session (ss : gmap string StateValue) : gmap string StateValue :=
  let ss := init_key "current_task" VNone ss in
  let ss := init_key "processing_step" (VInt 0) ss in
  init_key "uploaded_files" (VFiles []) ss.

(** Lines 89-93: the two quick-action buttons. *)
Definition quick_actions (process_all_pending view_reports : bool)
    (ss : gmap string StateValue) : gmap string StateValue :=
  let ss :=
    if process_all_pending then <["current_task" := VStr "batch_process"]> ss
    else ss in
  if view_reports then <["current_task" := VStr "reports"]> ss else ss.

(** A [dict] written as a literal: its items in insertion order, keys
    distinct. *)
Abbreviation Dict := (list (string * string)).

(** [list(d.keys())]. *)
Definition dict_keys (d : Dict) : list string := d.*1.

Definition KeyError (key : string) : Exception :=
  {| exc_type := "KeyError"; str := "'" +:+ key +:+ "'" |}.

(** [d[key]]. *)
Fixpoint getitem (d : Dict) (key : string) : Py string :=
  match d with
  | [] => raise (KeyError key)
  | (k, v) :: d' => if String.eqb k key then ret v else getitem d' key
  end.

(** Lines 57-64. *)
Definition stores : Dict :=
  [ ("STORE001", "Main Store");
    ("STORE002", "North Branch");
    ("STORE003", "South Branch");
    ("STORE004", "East Branch");
    ("STORE005", "West Branch");
    ("STORE006", "Central Branch") ].

(** Line 69: [lambda x: f"{x} - {stores[x]}"]. *)
Definition store_label (stores : Dict) (x : string) : Py string :=
  v <- getitem stores x ;;
  ret (x +:+ " - " +:+ v).

(** The labels a select box renders: [format_func] on every option, in
    order. *)
Fixpoint option_labels (format_func : string -> Py string) (options : list string)
  : Py (list string) :=
  match options with
  | [] => ret []
  | x :: options' =>
      label <- format_func x ;;
      labels <- option_labels format_func options' ;;
      ret (label :: labels)
  end.

(** Lines 66-70: the labels of the store select box. *)
Definition store_selectbox (stores : Dict) : Py (list string) :=
  option_labels (store_label stores) (dict_keys stores).

(** ** Tab 1: auto-fill supplier orders (lines 160-200) *)

(** [datetime.now()], read off the clock. *)
Definition now : Py nat := fun w => (Returned (clock w), w).

(** An entry of [st.session_state.activity_log]. *)
Record Activity := {
  timestamp : nat;
  task : string;
  supplier : string;
  store : string;
  file : string
}.

(** What the "Start Auto-Fill Process" button shows: the success with the
    confirmation offered for download, the error with the exception's message,
    or the warning. *)
Inductive Tab1Shown : Type :=
| OrderProcessed (confirmation_text file_name : string)
| ProcessingFailed (message : string)
| PleaseUploadAndSelect.

Section Tab1.

(** Whichever [auto_fill_supplier_order] the import at lines 17-41 bound. *)
Variable auto_fill_supplier_order : UploadedFile -> string -> string -> Py string.

(** [str] of a [datetime], and its [strftime('%Y%m%d_%H%M%S')]. *)
Variable str_datetime : nat -> string.
Variable strftime : nat -> string.

(** Lines 187-195: create the log when it is missing, then append. *)
Definition log_activity (activity_log : option (list Activity)) (entry : Activity)
  : list Activity :=
  let log := match activity_log with Some log => log | None => [] end in
  log ++ [entry].

(** Lines 160-200.  The handler returns what it shows and the
    [activity_log] key of the session state ([None] while the key is
    missing). *)
Definition tab1_start (uploaded_file : option UploadedFile)
    (selected_supplier selected_store : string)
    (activity_log : option (list Activity))
  : Py (Tab1Shown * option (list Activity)) :=
  match uploaded_file with
  | Some excel_file =>
      if negb (String.eqb selected_supplier EmptyString)
      then
        try_except
          (result <- auto_fill_supplier_order excel_file selected_supplier
                       selected_store ;;
           t1 <- now ;;
           let confirmation_text :=
             "Order confirmation for " +:+ selected_supplier +:+ nl
             +:+ "Store: " +:+ selected_store +:+ nl
             +:+ "Timestamp: " +:+ str_datetime t1 in
           t2 <- now ;;
           let file_name := "order_confirmation_" +:+ strftime t2 +:+ ".txt" in
           t3 <- now ;;
           ret (OrderProcessed confirmation_text file_name,
                Some (log_activity activity_log
                        {| timestamp := t3;
                           task := "order_fill";
                           supplier := selected_supplier;
                           store := selected_store;
                           file := name excel_file |})))
          (fun e => ret (ProcessingFailed (str e), activity_log))
      else ret (PleaseUploadAndSelect, activity_log)
  | None => ret (PleaseUploadAndSelect, activity_log)
  end.

End Tab1.

(** ** Tab 3: a single invoice (lines 331-356) *)

(** Line 345:
    [txt_content[:500] + "..." if len(txt_content) > 500 else txt_content],
    one character of the string for one character of the text. *)
Definition preview (txt_content : string) : string :=
  if (500 <? String.length txt_content)%nat
  then String.substring 0 500 txt_content +:+ "..."
  else txt_content.

(** What the "Convert Single Invoice" button shows: the preview with the data
    of the download button, or the error. *)
Inductive Tab3Shown : Type :=
| InvoiceConverted (preview_text download_data : string)
| InvoiceFailed (message : string).

Section Tab3Single.

Variable convert_pdf_to_ecrs : UploadedFile -> string -> string -> Py string.
Variables selected_store invoice_supplier : string.

(** Lines 333-356. *)
Definition tab3_single (uploaded_pdf : UploadedFile) : Py Tab3Shown :=
  try_except
    (txt_content <-
       convert_pdf_to_ecrs uploaded_pdf selected_store invoice_supplier ;;
     ret (InvoiceConverted (preview txt_content) txt_content))
    (fun e => ret (InvoiceFailed ("Conversion failed: " +:+ str e))).

End Tab3Single.

(** ** More sample inputs *)

Module Sample2.

(** An upload whose extension is in capitals. *)
Definition capitals_doc : UploadedFile :=
  {| name := "INVOICE.PDF"; getvalue := Sample.pdf_magic |}.

(** An order filler that refuses empty uploads. *)
Definition strict_fill (excel_file : UploadedFile)
    (supplier_name store_id : string) : Py string :=
  match getvalue excel_file with
  | [] => raise {| exc_type := "ValueError"; str := "empty order file" |}
  | _ :: _ => Demo.auto_fill_supplier_order excel_file supplier_name store_id
  end.

Definition order_xlsx : UploadedFile :=
  {| name := "order.xlsx"; getvalue := [Byte.x50; Byte.x4b] |}.

Definition empty_xlsx : UploadedFile :=
  {| name := "empty.xlsx"; getvalue := [] |}.

Definition show_seconds (t : nat) : string :=
  if Nat.eqb t 0 then "t0" else "later".

Definition earlier : Activity :=
  {| timestamp := 0; task := "order_fill"; supplier := "supplier_b";
     store := "STORE002"; file := "monday.xlsx" |}.



End Sample2.

(** * Theorems *)

Lemma demo_convert_run pdf_file store_id supplier_name w :
  Demo.convert_pdf_to_ecrs pdf_file store_id supplier_name w
  = (Returned Demo.invoice_text, {| clock := clock w + 1 |}).
Proof. reflexivity. Qed.

(** C9: in demo mode the conversion returns the same constant text whatever
    the document, the store id, the supplier name and the state of the world
    are; in particular two calls on arbitrary inputs return the same text. *)
Theorem demo_convert_constant :
  forall (pdf1 pdf2 : UploadedFile) (store1 store2 sup1 sup2 : string) (w1 w2 : World),
    (Demo.convert_pdf_to_ecrs pdf1 store1 sup1 w1).1 = Returned Demo.invoice_text /\
    (Demo.convert_pdf_to_ecrs pdf1 store1 sup1 w1).1
    = (Demo.convert_pdf_to_ecrs pdf2 store2 sup2 w2).1.
Proof.
  intros. rewrite !demo_convert_run. split; reflexivity.
Qed.

(** C7: the conversion is deterministic: two calls whose documents carry the
    same bytes, with the same store id and supplier name, return the same
    text, whatever the file names and the states of the world are. *)
Theorem demo_convert_deterministic :
  forall (pdf1 pdf2 : UploadedFile) (store_id supplier_name : string) (w1 w2 : World),
    getvalue pdf1 = getvalue pdf2 ->
    exists txt,
      (Demo.convert_pdf_to_ecrs pdf1 store_id supplier_name w1).1 = Returned txt /\
      (Demo.convert_pdf_to_ecrs pdf2 store_id supplier_name w2).1 = Returned txt.
Proof.
  intros pdf1 pdf2 store_id supplier_name w1 w2 _.
  exists Demo.invoice_text. rewrite !demo_convert_run. split; reflexivity.
Qed.

(** C1, as the code has it: in demo mode the converter returns, for every
    document, store id and supplier name, one fixed plain text: the header line
    [INVOICE_DATA] followed by one record per line of the form
    description,quantity,unitPrice whose numeric fields are plain runs of
    digits; the lines are separated by newlines and the last one is not
    terminated.  The text is never ["Milk,2.00,3.00\n"]. *)
Theorem demo_output_format :
  forall (pdf_file : UploadedFile) (store_id supplier_name : string) (w : World),
  exists txt,
    (Demo.convert_pdf_to_ecrs pdf_file store_id supplier_name w).1 = Returned txt /\
    txt = "INVOICE_DATA" +:+ nl +:+ "ITEM1,10,100" +:+ nl +:+ "ITEM2,5,200" /\
    split_on "010" txt = ["INVOICE_DATA"; "ITEM1,10,100"; "ITEM2,5,200"] /\
    split_on "," "ITEM1,10,100" = ["ITEM1"; "10"; "100"] /\
    split_on "," "ITEM2,5,200" = ["ITEM2"; "5"; "200"] /\
    integer_record "ITEM1,10,100" = true /\
    integer_record "ITEM2,5,200" = true /\
    last (split_on "010" txt) <> Some EmptyString /\
    txt <> "Milk,2.00,3.00" +:+ nl.
Proof.
  intros. exists Demo.invoice_text. rewrite demo_convert_run.
  repeat split; try reflexivity; vm_compute; discriminate.
Qed.

(** The converted text of the Milk invoice is not ["Milk,2.00,3.00\n"], nor a
    text in the Standard format at all: its header has no fields, its numbers
    have no decimals and its last line is not terminated. *)
Lemma demo_output_not_standard :
  EcrsSpec.standard_text ("Milk,2.00,3.00" +:+ nl) = true /\
  (Demo.convert_pdf_to_ecrs Sample.milk_pdf "STORE001" "Supplier A" Sample.w0).1
  = Returned Demo.invoice_text /\
  Demo.invoice_text <> "Milk,2.00,3.00" +:+ nl /\
  EcrsSpec.standard_text Demo.invoice_text = false /\
  EcrsSpec.standard_record "INVOICE_DATA" = false /\
  EcrsSpec.standard_record "ITEM1,10,100" = false /\
  last (split_on "010" Demo.invoice_text) = Some "ITEM2,5,200".
Proof.
  repeat split; try reflexivity. vm_compute. discriminate.
Qed.

Lemma demo_convert_deterministic_witness :
  getvalue Sample.doc1 = getvalue Sample.doc1_copy /\
  exists txt,
    (Demo.convert_pdf_to_ecrs Sample.doc1 "STORE001" "Supplier A"
       {| clock := 0 |}).1 = Returned txt /\
    (Demo.convert_pdf_to_ecrs Sample.doc1_copy "STORE001" "Supplier A"
       {| clock := 7 |}).1 = Returned txt.
Proof.
  split; [reflexivity|].
  apply (demo_convert_deterministic Sample.doc1 Sample.doc1_copy). reflexivity.
Defined.

(** ** Tab 2 *)

Lemma demo_process_run input_file output_format w :
  Demo.process_supplier_excel input_file output_format w
  = (Returned Demo.demo_frame, {| clock := clock w + 1 |}).
Proof. reflexivity. Qed.

Lemma tab2_convert_run input_file output_format ss w :
  tab2_convert (Some input_file) output_format ss w
  = (Returned (Converted Demo.demo_frame), {| clock := clock w + 1 |}).
Proof. reflexivity. Qed.

(** C5, as the code has it: for every uploaded table, output format and stored
    column mapping the conversion succeeds and shows the fixed demo table,
    which has exactly two rows whatever the number of rows of the input. *)
Theorem convert_returns_demo_frame :
  forall (input_file : UploadedFile) (output_format : string)
         (ss : SessionState) (w : World),
  exists processed_df w',
    tab2_convert (Some input_file) output_format ss w
    = (Returned (Converted processed_df), w') /\
    processed_df = Demo.demo_frame /\
    df_columns processed_df = ["Item"; "Quantity"] /\
    df_len processed_df = 2.
Proof.
  intros. eexists _, _. split; [apply tab2_convert_run|]. repeat split.
Qed.

(** A three-row sheet with one field per column is converted to two rows. *)
Lemma convert_changes_row_count :
  exists (mapping : gmap string MapTarget) (processed_df : DataFrame) (w' : World),
    Sample.read_supplier_sheet Sample.supplier_xlsx Sample.w0
    = (Returned Sample.supplier_sheet, Sample.w0) /\
    df_len Sample.supplier_sheet = 3 /\
    tab2_upload Sample.read_supplier_sheet Sample.choose_distinct
      Sample.supplier_xlsx Sample.no_session Sample.w0
    = (Returned {| column_mapping := Some mapping |}, Sample.w0) /\
    NoDup (mapped_targets mapping) /\
    tab2_convert (Some Sample.supplier_xlsx) "Standard Order Sheet"
      {| column_mapping := Some mapping |} Sample.w0
    = (Returned (Converted processed_df), w') /\
    df_len processed_df = 2 /\
    df_len processed_df <> df_len Sample.supplier_sheet.
Proof.
  eexists _, _, _. split; [reflexivity|]. split; [reflexivity|].
  split; [reflexivity|]. split.
  - assert (H : mapped_targets
                  (build_mapping Sample.choose_distinct ["Item"; "Qty"; "Cost"])
                = [Price; ItemName; Quantity]) by (vm_compute; reflexivity).
    cbn [df_columns Sample.supplier_sheet fmap list_fmap fst].
    rewrite H. apply (bool_decide_unpack _). vm_compute. exact I.
  - split; [reflexivity|]. split; [reflexivity|]. cbn. lia.
Qed.

Section Tab2Facts.

Variable read_excel : UploadedFile -> Py DataFrame.
Variable selectbox : string -> MapTarget.

Lemma fold_mapping_lookup (cols : list string) (c : string) :
  forall m0 : gmap string MapTarget,
    fold_left (fun mapping col => <[col := selectbox col]> mapping) cols m0 !! c
    = if decide (c ∈ cols) then Some (selectbox c) else m0 !! c.
Proof.
  induction cols as [|a cols IH]; intros m0; cbn [fold_left].
  - destruct (decide (c ∈ [])) as [Hin|_]; [|reflexivity].
    now apply elem_of_nil in Hin.
  - rewrite IH. destruct (decide (c ∈ cols)) as [Hin|Hout].
    + rewrite decide_True by (now apply elem_of_cons; right). reflexivity.
    + destruct (decide (c = a)) as [->|Hne].
      * rewrite lookup_insert_eq, decide_True by (now apply elem_of_cons; left).
        reflexivity.
      * rewrite lookup_insert_ne by congruence.
        rewrite decide_False; [reflexivity|].
        intros [?|?]%elem_of_cons; contradiction.
Qed.

(** Every column of the sheet is mapped to what its select box holds. *)
Lemma build_mapping_lookup (cols : list string) (c : string) :
  c ∈ cols -> build_mapping selectbox cols !! c = Some (selectbox c).
Proof.
  intros Hin. unfold build_mapping. rewrite fold_mapping_lookup.
  now rewrite decide_True.
Qed.

Lemma tab2_upload_run uploaded_excel ss w df w1 :
  read_excel uploaded_excel w = (Returned df, w1) ->
  df_columns df <> [] ->
  tab2_upload read_excel selectbox uploaded_excel ss w
  = (Returned {| column_mapping := Some (build_mapping selectbox (df_columns df)) |},
     w1).
Proof.
  intros Hread Hcols. unfold tab2_upload, try_except, bind. rewrite Hread.
  destruct (df_columns df) as [|c cols]; [congruence|]. reflexivity.
Qed.

(** C6, as the code has it: when two distinct columns of the uploaded sheet
    are given the same field, not Ignore, the mapping is stored as chosen, with
    both columns on that field, and the conversion, which does not read the
    mapping, succeeds with the demo table; nothing is rejected. *)
Theorem duplicate_mapping_stored
    (uploaded_excel : UploadedFile) (ss : SessionState) (w w1 : World)
    (df : DataFrame) (c1 c2 : string) (t : MapTarget) (output_format : string) :
  read_excel uploaded_excel w = (Returned df, w1) ->
  c1 ∈ df_columns df -> c2 ∈ df_columns df -> c1 <> c2 ->
  selectbox c1 = t -> selectbox c2 = t -> t <> Ignore ->
  exists mapping,
    tab2_upload read_excel selectbox uploaded_excel ss w
    = (Returned {| column_mapping := Some mapping |}, w1) /\
    mapping !! c1 = Some t /\
    mapping !! c2 = Some t /\
    forall w',
      tab2_convert (Some uploaded_excel) output_format
        {| column_mapping := Some mapping |} w'
      = (Returned (Converted Demo.demo_frame), {| clock := clock w' + 1 |}).
Proof.
  intros Hread Hc1 Hc2 _ Ht1 Ht2 _.
  exists (build_mapping selectbox (df_columns df)). split.
  - apply tab2_upload_run; [assumption|].
    intros Hnil. rewrite Hnil in Hc1. now apply elem_of_nil in Hc1.
  - split; [now rewrite build_mapping_lookup, Ht1|].
    split; [now rewrite build_mapping_lookup, Ht2|].
    intros w'. apply tab2_convert_run.
Qed.

End Tab2Facts.

Lemma duplicate_mapping_stored_witness :
  exists mapping,
    tab2_upload Sample.read_ab_sheet Sample.choose_quantity
      Sample.supplier_xlsx Sample.no_session Sample.w0
    = (Returned {| column_mapping := Some mapping |}, Sample.w0) /\
    mapping !! "A" = Some Quantity /\
    mapping !! "B" = Some Quantity /\
    forall w',
      tab2_convert (Some Sample.supplier_xlsx) "ECRS Import Format"
        {| column_mapping := Some mapping |} w'
      = (Returned (Converted Demo.demo_frame), {| clock := clock w' + 1 |}).
Proof.
  apply (duplicate_mapping_stored Sample.read_ab_sheet Sample.choose_quantity
           Sample.supplier_xlsx Sample.no_session Sample.w0 Sample.w0
           Sample.ab_sheet "A" "B" Quantity "ECRS Import Format").
  - reflexivity.
  - cbn. apply (bool_decide_unpack _). vm_compute. exact I.
  - cbn. apply (bool_decide_unpack _). vm_compute. exact I.
  - discriminate.
  - reflexivity.
  - reflexivity.
  - discriminate.
Defined.

(** The mapping [{"A": Quantity, "B": Quantity}] is stored and the conversion
    shows the demo table, not an error. *)
Lemma duplicate_mapping_accepted :
  exists (mapping : gmap string MapTarget) (shown : Tab2Shown) (w' : World),
    tab2_upload Sample.read_ab_sheet Sample.choose_quantity
      Sample.supplier_xlsx Sample.no_session Sample.w0
    = (Returned {| column_mapping := Some mapping |}, Sample.w0) /\
    mapping !! "A" = Some Quantity /\
    mapping !! "B" = Some Quantity /\
    ~ NoDup (mapped_targets mapping) /\
    tab2_convert (Some Sample.supplier_xlsx) "ECRS Import Format"
      {| column_mapping := Some mapping |} Sample.w0
    = (Returned shown, w') /\
    shown = Converted Demo.demo_frame /\
    (forall message, shown <> ConversionFailed message).
Proof.
  eexists _, _, _. split; [reflexivity|].
  split; [vm_compute; reflexivity|]. split; [vm_compute; reflexivity|].
  split.
  - assert (H : mapped_targets (build_mapping Sample.choose_quantity ["A"; "B"])
                = [Quantity; Quantity]) by (vm_compute; reflexivity).
    cbn [df_columns Sample.ab_sheet fmap list_fmap fst]. rewrite H.
    intros Hnd. apply NoDup_cons in Hnd as [Hnotin _]. apply Hnotin. left.
  - split; [reflexivity|]. split; [reflexivity|]. discriminate.
Qed.

(** ** Renaming with [str.replace] *)

Example str_replace_extension :
  str_replace ".pdf" ".txt" "invoice_0042.pdf" = "invoice_0042.txt".
Proof. reflexivity. Qed.

Example str_replace_every_occurrence :
  str_replace ".pdf" ".txt" "q3.pdf.summary.pdf" = "q3.txt.summary.txt".
Proof. reflexivity. Qed.

Example str_replace_case_sensitive :
  str_replace ".pdf" ".txt" "INVOICE.PDF" = "INVOICE.PDF".
Proof. reflexivity. Qed.

Example str_replace_no_overlap : str_replace "aa" "b" "aaaaa" = "bba".
Proof. reflexivity. Qed.

Example str_replace_empty_old : str_replace "" "-" "abc" = "-a-b-c-".
Proof. reflexivity. Qed.

Example str_find_first : str_find ".pdf" "q3.pdf.summary.pdf" = Some 2.
Proof. reflexivity. Qed.

Example split_on_commas : split_on "," "ITEM1,10,100" = ["ITEM1"; "10"; "100"].
Proof. reflexivity. Qed.

Lemma prefix_refl (s : string) : String.prefix s s = true.
Proof.
  induction s as [|c s IH]; [reflexivity|].
  cbn. destruct (ascii_dec c c) as [_|Hc]; [exact IH|now elim Hc].
Qed.

Lemma replace_go_skip (old new s : string) :
  replace_go old new (String.length s) s = EmptyString.
Proof. induction s as [|c s IH]; [reflexivity|exact IH]. Qed.

Lemma replace_go_whole (old new : string) :
  old <> EmptyString -> replace_go old new 0 old = new.
Proof.
  destruct old as [|c old]; [congruence|]. intros _.
  cbn [replace_go]. rewrite prefix_refl.
  replace (String.length (String c old) - 1) with (String.length old)
    by (cbn [String.length]; lia).
  rewrite replace_go_skip.
  induction new as [|n new IH]; [reflexivity|].
  change (String n (new +:+ EmptyString) = String n new). now rewrite IH.
Qed.

(** When the first occurrence of [old] in [stem ++ old] is the final one, the
    replacement rewrites that suffix and nothing else. *)
Lemma replace_go_suffix (old new : string) : forall stem : string,
  old <> EmptyString ->
  str_find old (stem +:+ old) = Some (String.length stem) ->
  replace_go old new 0 (stem +:+ old) = stem +:+ new.
Proof.
  induction stem as [|c stem IH]; intros Hold Hfind.
  - now apply replace_go_whole.
  - change (String c stem +:+ old) with (String c (stem +:+ old)) in *.
    cbn [replace_go]. cbn [str_find] in Hfind.
    destruct (String.prefix old (String c (stem +:+ old))); [discriminate|].
    change (String c stem +:+ new) with (String c (stem +:+ new)).
    f_equal. apply IH; [assumption|].
    destruct (str_find old (stem +:+ old)) as [k|]; [|discriminate].
    cbn in Hfind. congruence.
Qed.

Lemma pdf_to_txt (stem : string) :
  str_find ".pdf" (stem +:+ ".pdf") = Some (String.length stem) ->
  str_replace ".pdf" ".txt" (stem +:+ ".pdf") = stem +:+ ".txt".
Proof. intros H. unfold str_replace. now apply replace_go_suffix. Qed.

(** ** Progress fractions *)

Lemma quotient_le (a b n : nat) :
  a <= b ->
  (inject_Z (Z.of_nat a) / inject_Z (Z.of_nat n)
   <= inject_Z (Z.of_nat b) / inject_Z (Z.of_nat n))%Q.
Proof.
  intros Hab. unfold Qdiv. apply Qmult_le_compat_r.
  - rewrite <- Zle_Qle. lia.
  - apply Qinv_le_0_compat. change 0%Q with (inject_Z 0). rewrite <- Zle_Qle. lia.
Qed.

Lemma quotient_lt (a b n : nat) :
  a < b -> n <> 0 ->
  (inject_Z (Z.of_nat a) / inject_Z (Z.of_nat n)
   < inject_Z (Z.of_nat b) / inject_Z (Z.of_nat n))%Q.
Proof.
  intros Hab Hn. unfold Qdiv. apply Qmult_lt_compat_r.
  - apply Qinv_lt_0_compat. change 0%Q with (inject_Z 0). rewrite <- Zlt_Qlt. lia.
  - rewrite <- Zlt_Qlt. lia.
Qed.

Lemma quotient_zero (n : nat) :
  (inject_Z (Z.of_nat 0) / inject_Z (Z.of_nat n) == 0)%Q.
Proof. unfold Qdiv. apply Qmult_0_l. Qed.

Lemma quotient_nonneg (a n : nat) :
  (0 <= inject_Z (Z.of_nat a) / inject_Z (Z.of_nat n))%Q.
Proof.
  unfold Qdiv. apply Qmult_le_0_compat.
  - change 0%Q with (inject_Z 0). rewrite <- Zle_Qle. lia.
  - apply Qinv_le_0_compat. change 0%Q with (inject_Z 0). rewrite <- Zle_Qle. lia.
Qed.

Lemma quotient_full (n : nat) :
  n <> 0 -> (inject_Z (Z.of_nat n) / inject_Z (Z.of_nat n) == 1)%Q.
Proof.
  intros Hn. unfold Qdiv. apply Qmult_inv_r.
  change 0%Q with (inject_Z 0). rewrite inject_Z_injective. lia.
Qed.

(** ** The batch loop *)

Section Tab3Facts.

Variable convert_pdf_to_ecrs : UploadedFile -> string -> string -> Py string.
Variable fl : Q -> Q.
Variables selected_store invoice_supplier : string.

Local Abbreviation convert :=
  (fun pdf_file => convert_pdf_to_ecrs pdf_file selected_store invoice_supplier).
Local Abbreviation body :=
  (batch_body convert_pdf_to_ecrs fl selected_store invoice_supplier).
Local Abbreviation batch :=
  (batch_convert convert_pdf_to_ecrs fl selected_store invoice_supplier).
Local Abbreviation handler :=
  (tab3_batch convert_pdf_to_ecrs fl selected_store invoice_supplier).
Local Abbreviation outcomes :=
  (conversions convert_pdf_to_ecrs selected_store invoice_supplier).

(** One turn of the loop never raises: whatever the conversion does, one
    entry and one progress value are appended. *)
Lemma batch_body_run n st i pdf_file w :
  n <> 0 ->
  body n st i pdf_file w =
    (Returned
       {| results := results st ++ [entry_of pdf_file (convert pdf_file w).1];
          progress_bar := progress_bar st ++ [float_quotient fl (i + 1) n] |},
     (convert pdf_file w).2).
Proof.
  intros Hn. unfold batch_body, bind, try_except, truediv.
  destruct (convert_pdf_to_ecrs pdf_file selected_store invoice_supplier w)
    as [[txt_content|e] w1]; cbn;
    destruct (Nat.eqb_spec n 0) as [Hz|_]; try (now elim Hn); reflexivity.
Qed.

Lemma conversions_cons pdf_file docs w :
  outcomes (pdf_file :: docs) w =
    ((convert pdf_file w).1 :: (outcomes docs (convert pdf_file w).2).1,
     (outcomes docs (convert pdf_file w).2).2).
Proof.
  cbn. destruct (convert_pdf_to_ecrs _ _ _ w) as [o w1]. cbn.
  destruct (conversions _ _ _ docs w1) as [os w2]. reflexivity.
Qed.

Lemma conversions_length docs : forall w, length (outcomes docs w).1 = length docs.
Proof.
  induction docs as [|d docs IH]; intros w; [reflexivity|].
  rewrite conversions_cons. cbn. now rewrite IH.
Qed.

Lemma conversions_app docs1 docs2 : forall w,
  outcomes (docs1 ++ docs2) w =
    ((outcomes docs1 w).1 ++ (outcomes docs2 (outcomes docs1 w).2).1,
     (outcomes docs2 (outcomes docs1 w).2).2).
Proof.
  induction docs1 as [|d docs1 IH]; intros w.
  - cbn. now destruct (conversions _ _ _ docs2 w).
  - rewrite <- app_comm_cons, !conversions_cons, IH. reflexivity.
Qed.

(** The loop from index [i] on, in closed form. *)
Lemma for_enumerate_run n docs : forall i st w,
  n <> 0 ->
  for_enumerate (body n) i docs st w =
    (Returned
       {| results := results st ++ zip_with entry_of docs (outcomes docs w).1;
          progress_bar :=
            progress_bar st
            ++ ((fun k => float_quotient fl k n) <$> seq (i + 1) (length docs)) |},
     (outcomes docs w).2).
Proof.
  induction docs as [|d docs IH]; intros i st w Hn.
  - cbn. unfold ret. rewrite !app_nil_r. now destruct st.
  - cbn [for_enumerate]. unfold bind at 1.
    rewrite batch_body_run by assumption.
    rewrite IH by assumption. rewrite conversions_cons. cbn.
    rewrite <- !app_assoc. cbn.
    replace (S i + 1) with (S (i + 1)) by lia. reflexivity.
Qed.

(** The whole loop, in closed form: it returns, with one entry per document
    and the progress values 0, 1/n, ..., n/n. *)
Lemma batch_convert_run docs w :
  batch docs w =
    (Returned
       {| results := zip_with entry_of docs (outcomes docs w).1;
          progress_bar :=
            0%Q :: ((fun k => float_quotient fl k (length docs))
                      <$> seq 1 (length docs)) |},
     (outcomes docs w).2).
Proof.
  unfold batch_convert. destruct docs as [|d docs]; [reflexivity|].
  rewrite for_enumerate_run by (cbn; lia). reflexivity.
Qed.

Lemma make_zip_run (rs : list (string * string)) :
  make_zip rs = (fun r => (str_replace ".pdf" ".txt" r.1, r.2)) <$> rs.
Proof.
  unfold make_zip.
  enough (forall z,
    fold_left (fun zip_file '(filename, content) =>
                 writestr zip_file (str_replace ".pdf" ".txt" filename) content)
              rs z
    = z ++ ((fun r => (str_replace ".pdf" ".txt" r.1, r.2)) <$> rs)) as H
    by apply (H []).
  induction rs as [|[filename content] rs IH]; intros z; cbn.
  - now rewrite app_nil_r.
  - rewrite IH. unfold writestr. now rewrite <- app_assoc.
Qed.

Lemma tab3_batch_run docs w :
  handler docs w =
    (Returned
       ({| results := zip_with entry_of docs (outcomes docs w).1;
           progress_bar :=
             0%Q :: ((fun k => float_quotient fl k (length docs))
                       <$> seq 1 (length docs)) |},
        make_zip (zip_with entry_of docs (outcomes docs w).1)),
     (outcomes docs w).2).
Proof.
  unfold tab3_batch, bind. rewrite batch_convert_run. reflexivity.
Qed.

Lemma zip_with_entry_names (docs : list UploadedFile) : forall os,
  length os = length docs -> (zip_with entry_of docs os).*1 = name <$> docs.
Proof.
  induction docs as [|d docs IH]; intros [|o os] Hlen; try discriminate; [reflexivity|].
  cbn. rewrite IH by (cbn in Hlen; lia). now destruct o.
Qed.

Lemma make_zip_length (rs : list (string * string)) : length (make_zip rs) = length rs.
Proof. rewrite make_zip_run. apply length_fmap. Qed.

Lemma make_zip_contents (rs : list (string * string)) : (make_zip rs).*2 = rs.*2.
Proof.
  rewrite make_zip_run. induction rs as [|r rs IH]; [reflexivity|].
  cbn in *. now f_equal.
Qed.

Lemma make_zip_names (rs : list (string * string)) :
  (make_zip rs).*1 = str_replace ".pdf" ".txt" <$> rs.*1.
Proof.
  rewrite make_zip_run. induction rs as [|r rs IH]; [reflexivity|].
  cbn in *. now f_equal.
Qed.

Lemma make_zip_lookup (rs : list (string * string)) k filename content :
  rs !! k = Some (filename, content) ->
  make_zip rs !! k = Some (str_replace ".pdf" ".txt" filename, content).
Proof.
  intros H. rewrite make_zip_run, list_lookup_fmap, H. reflexivity.
Qed.

Lemma results_lookup docs w k d o :
  docs !! k = Some d -> (outcomes docs w).1 !! k = Some o ->
  zip_with entry_of docs (outcomes docs w).1 !! k = Some (entry_of d o).
Proof.
  intros Hd Ho. rewrite lookup_zip_with, Hd. cbn. rewrite Ho. reflexivity.
Qed.

(** C10: for every list of documents the loop returns with exactly one
    (filename, content) entry per document, in input order; the content is the
    converted text, or ["ERROR: "] followed by the exception message when the
    conversion raised; the archive has one entry per document too, the failed
    ones included, with the same contents. *)
Theorem batch_one_entry_per_document (docs : list UploadedFile) (w : World) :
  exists st zip_file w',
    handler docs w = (Returned (st, zip_file), w') /\
    length (results st) = length docs /\
    (results st).*1 = name <$> docs /\
    (forall k d txt_content,
        docs !! k = Some d -> (outcomes docs w).1 !! k = Some (Returned txt_content) ->
        results st !! k = Some (name d, txt_content)) /\
    (forall k d e,
        docs !! k = Some d -> (outcomes docs w).1 !! k = Some (Raised e) ->
        results st !! k = Some (name d, "ERROR: " +:+ str e) /\
        zip_file !! k
        = Some (str_replace ".pdf" ".txt" (name d), "ERROR: " +:+ str e)) /\
    length zip_file = length docs /\
    zip_file.*1 = (fun d => str_replace ".pdf" ".txt" (name d)) <$> docs /\
    zip_file.*2 = (results st).*2.
Proof.
  eexists _, _, _. split; [apply tab3_batch_run|]. cbn [results].
  assert (Hlen : length (zip_with entry_of docs (outcomes docs w).1) = length docs).
  { rewrite length_zip_with, conversions_length. lia. }
  split; [exact Hlen|].
  split; [apply zip_with_entry_names, conversions_length|].
  split; [intros k d txt Hd Ho; apply (results_lookup _ _ _ _ _ Hd Ho)|].
  split.
  - intros k d e Hd Ho. pose proof (results_lookup _ _ _ _ _ Hd Ho) as Hr.
    split; [exact Hr|]. apply make_zip_lookup. exact Hr.
  - split; [now rewrite make_zip_length|].
    split; [|apply make_zip_contents].
    rewrite make_zip_names, zip_with_entry_names by apply conversions_length.
    now rewrite <- list_fmap_compose.
Qed.

(** C3: an error raised while converting one document is caught and recorded
    as that document's entry, and the documents after it are still processed:
    the batch returns, and its results are those of the documents before, the
    error entry, and those of the documents after, processed from the world
    the failed conversion left. *)
Theorem batch_failure_isolated
    (docs1 : list UploadedFile) (d : UploadedFile) (docs2 : list UploadedFile)
    (w w1 w2 : World) (st1 : BatchState) (e : Exception) :
  batch docs1 w = (Returned st1, w1) ->
  convert d w1 = (Raised e, w2) ->
  exists st2 st w3,
    batch docs2 w2 = (Returned st2, w3) /\
    batch (docs1 ++ d :: docs2) w = (Returned st, w3) /\
    results st = results st1 ++ (name d, "ERROR: " +:+ str e) :: results st2 /\
    length (results st) = length (docs1 ++ d :: docs2).
Proof.
  rewrite batch_convert_run. intros H1 Hd.
  injection H1 as Hst1 Hw1.
  eexists _, _, _. split; [apply batch_convert_run|].
  split.
  - rewrite batch_convert_run, conversions_app, conversions_cons.
    cbn [fst snd]. rewrite Hw1, Hd. reflexivity.
  - cbn [results]. rewrite <- Hst1. cbn [results fst snd].
    rewrite zip_with_app by (now rewrite conversions_length).
    split; [reflexivity|].
    rewrite !length_app, !length_zip_with. cbn [length].
    rewrite !conversions_length. lia.
Qed.

(** C2, as the code has it: in a batch of three documents of which the second
    raises, the loop returns one results list of three entries in input order;
    the failed document's entry sits between the others and holds ["ERROR: "]
    followed by the exception message. *)
Theorem batch_of_three_with_failure
    (d1 d2 d3 : UploadedFile) (w w1 w2 w3 : World)
    (txt1 txt3 : string) (e : Exception) :
  convert d1 w = (Returned txt1, w1) ->
  convert d2 w1 = (Raised e, w2) ->
  convert d3 w2 = (Returned txt3, w3) ->
  exists st,
    batch [d1; d2; d3] w = (Returned st, w3) /\
    results st
    = [(name d1, txt1); (name d2, "ERROR: " +:+ str e); (name d3, txt3)].
Proof.
  intros H1 H2 H3. eexists. rewrite batch_convert_run, !conversions_cons.
  cbn [fst snd]. rewrite H1. cbn [fst snd]. rewrite H2. cbn [fst snd].
  rewrite H3. cbn. split; reflexivity.
Qed.

(** C4, as the code has it: the archive has exactly one entry per entry of
    the results list, that is one per input document, in input order and with
    the same content; and for a document named [stem ++ ".pdf"] in which
    [".pdf"] occurs nowhere before that extension, the entry is named
    [stem ++ ".txt"]. *)
Theorem archive_entries (docs : list UploadedFile) (w : World) :
  exists st zip_file w',
    handler docs w = (Returned (st, zip_file), w') /\
    length zip_file = length (results st) /\
    length zip_file = length docs /\
    zip_file.*2 = (results st).*2 /\
    (forall k d stem,
        docs !! k = Some d ->
        name d = stem +:+ ".pdf" ->
        str_find ".pdf" (name d) = Some (String.length stem) ->
        exists content,
          results st !! k = Some (name d, content) /\
          zip_file !! k = Some (stem +:+ ".txt", content)).
Proof.
  eexists _, _, _. split; [apply tab3_batch_run|]. cbn [results].
  assert (Hlen : length (zip_with entry_of docs (outcomes docs w).1) = length docs).
  { rewrite length_zip_with, conversions_length. lia. }
  split; [apply make_zip_length|].
  split; [now rewrite make_zip_length|].
  split; [apply make_zip_contents|].
  intros k d stem Hd Hname Hfind.
  destruct ((outcomes docs w).1 !! k) as [o|] eqn:Ho.
  - pose proof (results_lookup _ _ _ _ _ Hd Ho) as Hr.
    assert (Hentry : entry_of d o = (name d, (entry_of d o).2)) by now destruct o.
    rewrite Hentry in Hr. exists (entry_of d o).2. split; [exact Hr|].
    rewrite (make_zip_lookup _ _ _ _ Hr), Hname, pdf_to_txt; [reflexivity|].
    now rewrite <- Hname.
  - apply lookup_ge_None in Ho. apply lookup_lt_Some in Hd.
    rewrite conversions_length in Ho. lia.
Qed.

Section Progress.

(** Rounding to the nearest float is monotone and leaves 0 and 1 alone. *)
Hypothesis fl_monotone : forall a b : Q, (a <= b)%Q -> (fl a <= fl b)%Q.
Hypothesis fl_zero : (fl 0 == 0)%Q.
Hypothesis fl_one : (fl 1 == 1)%Q.

Lemma fl_proper (a b : Q) : (a == b)%Q -> (fl a == fl b)%Q.
Proof.
  intros Hab. apply Qle_antisym; apply fl_monotone; rewrite Hab; apply Qle_refl.
Qed.

(** The value shown after [k] documents out of [n]. *)
Lemma progress_lookup (n k : nat) (x : Q) :
  (0%Q :: ((fun k => float_quotient fl k n) <$> seq 1 n)) !! k = Some x ->
  k <= n /\ x = match k with 0 => 0%Q | S _ => float_quotient fl k n end.
Proof.
  destruct k as [|k]; simpl.
  - intros [= <-]. split; [lia|reflexivity].
  - rewrite list_lookup_fmap.
    destruct (seq 1 n !! k) as [m|] eqn:Hm; [|discriminate].
    apply lookup_seq in Hm as [-> Hk]. cbn. intros [= <-]. split; [lia|reflexivity].
Qed.

Lemma float_quotient_nonneg (k n : nat) : (0 <= float_quotient fl k n)%Q.
Proof.
  unfold float_quotient. rewrite <- fl_zero. apply fl_monotone, quotient_nonneg.
Qed.

(** C8: the batch returns, having given the progress bar the count of
    documents processed so far over the total after each document, rounded:
    0 first, then 1/n, 2/n, ..., n/n.  These values never decrease, they
    increase strictly where the rounding keeps distinct quotients apart, and
    after the last document the value is 1, the whole of the batch. *)
Theorem progress_never_decreases (docs : list UploadedFile) (w : World) :
  exists st w',
    batch docs w = (Returned st, w') /\
    progress_bar st
    = 0%Q :: ((fun k => float_quotient fl k (length docs)) <$> seq 1 (length docs)) /\
    (forall i j x y,
        i <= j ->
        progress_bar st !! i = Some x -> progress_bar st !! j = Some y ->
        (x <= y)%Q) /\
    ((forall a b : Q, (a < b)%Q -> (fl a < fl b)%Q) ->
     forall i j x y,
        i < j ->
        progress_bar st !! i = Some x -> progress_bar st !! j = Some y ->
        (x < y)%Q) /\
    (docs <> [] ->
     exists x, last (progress_bar st) = Some x /\ (x == 1)%Q).
Proof.
  eexists _, _. split; [apply batch_convert_run|]. cbn [progress_bar].
  split; [reflexivity|]. split; [|split].
  - intros i j x y Hij Hx Hy.
    apply progress_lookup in Hx as [_ ->]. apply progress_lookup in Hy as [_ ->].
    destruct i as [|i], j as [|j]; try lia.
    + apply Qle_refl.
    + apply float_quotient_nonneg.
    + apply fl_monotone, quotient_le. lia.
  - intros fl_strict i j x y Hij Hx Hy.
    apply progress_lookup in Hx as [_ ->]. apply progress_lookup in Hy as [Hj ->].
    destruct i as [|i], j as [|j]; try lia.
    + unfold float_quotient. eapply Qle_lt_trans.
      * apply Qle_lteq. right. apply Qeq_sym, fl_zero.
      * eapply Qle_lt_trans; [|apply fl_strict, (quotient_lt 0 (S j)); lia].
        apply Qle_lteq. right. apply fl_proper, Qeq_sym, quotient_zero.
    + apply fl_strict, quotient_lt; lia.
  - intros Hdocs.
    assert (Hn : length docs <> 0) by (destruct docs; [congruence|cbn; lia]).
    exists (float_quotient fl (length docs) (length docs)). split.
    + rewrite last_lookup. cbn [length]. rewrite length_fmap, length_seq.
      cbn [Nat.pred]. destruct (length docs) as [|n] eqn:Hlen; [congruence|].
      change (((fun k => float_quotient fl k (S n)) <$> seq 1 (S n)) !! n
              = Some (float_quotient fl (S n) (S n))).
      rewrite list_lookup_fmap, (lookup_seq_lt 1 (S n) n) by lia. reflexivity.
    + unfold float_quotient.
      eapply Qeq_trans; [apply fl_proper, quotient_full, Hn|exact fl_one].
Qed.

End Progress.

End Tab3Facts.

(** ** The batch loop on sample documents *)

Lemma batch_one_entry_per_document_witness :
  exists st zip_file w',
    Sample.handler [Sample.doc1; Sample.doc2; Sample.doc3] Sample.w0
    = (Returned (st, zip_file), w') /\
    length (results st) = 3 /\
    results st !! 0 = Some ("doc1.pdf", Demo.invoice_text) /\
    results st !! 1 = Some ("doc2.pdf", "ERROR: cannot open doc2.pdf") /\
    zip_file !! 1 = Some ("doc2.txt", "ERROR: cannot open doc2.pdf") /\
    length zip_file = 3.
Proof.
  destruct (batch_one_entry_per_document Sample.strict_convert (fun q => q)
              "STORE001" "Supplier A"
              [Sample.doc1; Sample.doc2; Sample.doc3] Sample.w0)
    as (st & zip_file & w' & Hrun & Hlen & _ & Hok & Herr & Hzip & _ & _).
  exists st, zip_file, w'. split; [exact Hrun|]. split; [exact Hlen|].
  split; [apply (Hok 0 Sample.doc1); reflexivity|].
  destruct (Herr 1 Sample.doc2
              {| exc_type := "CorruptDocument"; str := "cannot open doc2.pdf" |})
    as [Hr Hz]; [reflexivity|reflexivity|].
  split; [exact Hr|]. split; [exact Hz|exact Hzip].
Defined.

Lemma batch_failure_isolated_witness :
  exists st2 st w3,
    Sample.batch [Sample.doc3] {| clock := 1 |} = (Returned st2, w3) /\
    Sample.batch ([Sample.doc1] ++ Sample.doc2 :: [Sample.doc3]) Sample.w0
    = (Returned st, w3) /\
    results st
    = [("doc1.pdf", Demo.invoice_text)]
      ++ ("doc2.pdf", "ERROR: cannot open doc2.pdf") :: results st2 /\
    length (results st) = 3.
Proof.
  apply (batch_failure_isolated Sample.strict_convert (fun q => q)
           "STORE001" "Supplier A" [Sample.doc1] Sample.doc2 [Sample.doc3]
           Sample.w0 {| clock := 1 |} {| clock := 1 |}
           {| results := [("doc1.pdf", Demo.invoice_text)];
              progress_bar := [0%Q; (1 # 1)%Q] |}
           {| exc_type := "CorruptDocument"; str := "cannot open doc2.pdf" |});
    reflexivity.
Defined.

Lemma batch_of_three_with_failure_witness :
  exists st,
    Sample.batch [Sample.doc1; Sample.doc2; Sample.doc3] Sample.w0
    = (Returned st, {| clock := 2 |}) /\
    results st
    = [("doc1.pdf", Demo.invoice_text);
       ("doc2.pdf", "ERROR: cannot open doc2.pdf");
       ("doc3.pdf", Demo.invoice_text)].
Proof.
  apply (batch_of_three_with_failure Sample.strict_convert (fun q => q)
           "STORE001" "Supplier A" Sample.doc1 Sample.doc2 Sample.doc3
           Sample.w0 {| clock := 1 |} {| clock := 1 |} {| clock := 2 |}
           Demo.invoice_text Demo.invoice_text
           {| exc_type := "CorruptDocument"; str := "cannot open doc2.pdf" |});
    reflexivity.
Defined.

(** Of three documents the second raises [CorruptDocument]; the one results
    list holds three entries, the failed document's among them and without
    the exception's type. *)
Lemma batch_of_three_mixes_failure :
  exists st w',
    Sample.strict_convert Sample.doc2 "STORE001" "Supplier A" {| clock := 1 |}
    = (Raised {| exc_type := "CorruptDocument"; str := "cannot open doc2.pdf" |},
       {| clock := 1 |}) /\
    Sample.batch [Sample.doc1; Sample.doc2; Sample.doc3] Sample.w0
    = (Returned st, w') /\
    length (results st) = 3 /\
    results st !! 1 = Some ("doc2.pdf", "ERROR: cannot open doc2.pdf") /\
    results st
    <> [("doc1.pdf", Demo.invoice_text); ("doc3.pdf", Demo.invoice_text)].
Proof.
  eexists _, _. split; [reflexivity|]. split; [reflexivity|].
  split; [reflexivity|]. split; [reflexivity|]. discriminate.
Qed.

Lemma archive_entries_witness :
  exists st zip_file w',
    Sample.handler [Sample.doc1; Sample.doc2] Sample.w0
    = (Returned (st, zip_file), w') /\
    length zip_file = 2 /\
    exists content,
      results st !! 0 = Some ("doc1.pdf", content) /\
      zip_file !! 0 = Some ("doc1.txt", content).
Proof.
  destruct (archive_entries Sample.strict_convert (fun q => q)
              "STORE001" "Supplier A" [Sample.doc1; Sample.doc2] Sample.w0)
    as (st & zip_file & w' & Hrun & _ & Hlen & _ & Hname).
  exists st, zip_file, w'. split; [exact Hrun|]. split; [exact Hlen|].
  apply (Hname 0 Sample.doc1 "doc1"); reflexivity.
Defined.

(** Of three documents the second fails; the archive holds three entries, one
    of them for the failed document, and the entry of [q3.pdf.summary.pdf] is
    not named [q3.pdf.summary.txt]. *)
Lemma archive_holds_failed_documents :
  exists st zip_file w',
    Sample.handler [Sample.doc1; Sample.doc2; Sample.summary_doc] Sample.w0
    = (Returned (st, zip_file), w') /\
    (conversions Sample.strict_convert "STORE001" "Supplier A"
       [Sample.doc1; Sample.doc2; Sample.summary_doc] Sample.w0).1
    = [Returned Demo.invoice_text;
       Raised {| exc_type := "CorruptDocument"; str := "cannot open doc2.pdf" |};
       Returned Demo.invoice_text] /\
    zip_file
    = [("doc1.txt", Demo.invoice_text);
       ("doc2.txt", "ERROR: cannot open doc2.pdf");
       ("q3.txt.summary.txt", Demo.invoice_text)] /\
    length zip_file = 3 /\
    zip_file !! 2 <> Some ("q3.pdf.summary.txt", Demo.invoice_text).
Proof.
  eexists _, _, _. split; [reflexivity|]. split; [reflexivity|].
  split; [reflexivity|]. split; [reflexivity|]. discriminate.
Qed.

Lemma progress_never_decreases_witness :
  exists st w',
    Sample.batch [Sample.doc1; Sample.doc2; Sample.doc3] Sample.w0
    = (Returned st, w') /\
    (forall i j x y,
        i <= j ->
        progress_bar st !! i = Some x -> progress_bar st !! j = Some y ->
        (x <= y)%Q) /\
    (forall i j x y,
        i < j ->
        progress_bar st !! i = Some x -> progress_bar st !! j = Some y ->
        (x < y)%Q) /\
    exists x, last (progress_bar st) = Some x /\ (x == 1)%Q.
Proof.
  destruct (progress_never_decreases Sample.strict_convert (fun q => q)
              "STORE001" "Supplier A"
              (fun a b H => H) (Qeq_refl 0) (Qeq_refl 1)
              [Sample.doc1; Sample.doc2; Sample.doc3] Sample.w0)
    as (st & w' & Hrun & _ & Hmono & Hstrict & Hlast).
  exists st, w'. split; [exact Hrun|]. split; [exact Hmono|].
  split; [exact (Hstrict (fun a b H => H))|].
  apply Hlast. discriminate.
Defined.

(** * Further properties of the code *)

(** ** Archive names *)

Lemma prefix_true_app (p s : string) :
  String.prefix p s = true -> exists t, s = p +:+ t.
Proof.
  revert s. induction p as [|a p IH]; intros s H.
  - exists s. reflexivity.
  - destruct s as [|c s]; [discriminate|]. cbn in H.
    destruct (ascii_dec a c) as [->|]; [|discriminate].
    destruct (IH s H) as [t ->]. exists t. reflexivity.
Qed.

Lemma prefix_cons (a : ascii) (p : string) (c : ascii) (s : string) :
  String.prefix (String a p) (String c s)
  = if ascii_dec a c then String.prefix p s else false.
Proof. reflexivity. Qed.

Lemma prefix_pdf_inv (c : ascii) (s : string) :
  String.prefix ".pdf" (String c s) = true ->
  exists t, c = "."%char /\ s = String "p" (String "d" (String "f" t)).
Proof.
  intros H. apply prefix_true_app in H as [t Ht].
  change (".pdf" +:+ t) with (String "." (String "p" (String "d" (String "f" t))))
    in Ht.
  injection Ht as -> ->. now exists t.
Qed.

Lemma pdf_replaced (t : string) :
  replace_go ".pdf" ".txt" 0 (String "." (String "p" (String "d" (String "f" t))))
  = String "." (String "t" (String "x" (String "t"
      (replace_go ".pdf" ".txt" 0 t)))).
Proof. cbn. destruct t; reflexivity. Qed.

Lemma pdf_kept (c : ascii) (s : string) :
  String.prefix ".pdf" (String c s) = false ->
  replace_go ".pdf" ".txt" 0 (String c s)
  = String c (replace_go ".pdf" ".txt" 0 s).
Proof. intros H. cbn [replace_go]. now rewrite H. Qed.

(** Up to the first period the renamed string reads as the original. *)
Lemma dotfree_prefix (u : string) : forall s : string,
  string_forallb (fun c => negb (Ascii.eqb c ".")) u = true ->
  String.prefix u (replace_go ".pdf" ".txt" 0 s) = String.prefix u s.
Proof.
  induction u as [|a u IH]; intros s Hu.
  - now destruct s, (replace_go ".pdf" ".txt" 0 _).
  - cbn in Hu. apply andb_prop in Hu as [Ha Hu].
    apply negb_true_iff, Ascii.eqb_neq in Ha.
    destruct s as [|c s]; [reflexivity|].
    destruct (String.prefix ".pdf" (String c s)) eqn:Hp.
    + apply prefix_pdf_inv in Hp as (t & -> & ->).
      rewrite (pdf_replaced t). cbn.
      destruct (ascii_dec a ".") as [->|_]; [now elim Ha|reflexivity].
    + rewrite pdf_kept by assumption. cbn.
      destruct (ascii_dec a c); [now apply IH|reflexivity].
Qed.

Lemma renamed_has_no_pdf_bounded (n : nat) : forall s : string,
  String.length s < n ->
  str_find ".pdf" (str_replace ".pdf" ".txt" s) = None.
Proof.
  unfold str_replace.
  induction n as [|n IH]; intros s Hlen; [lia|].
  destruct s as [|c s]; [reflexivity|].
  destruct (String.prefix ".pdf" (String c s)) eqn:Hp.
  - apply prefix_pdf_inv in Hp as (t & -> & ->). rewrite pdf_replaced.
    assert (Hrec : str_find ".pdf" (replace_go ".pdf" ".txt" 0 t) = None).
    { apply IH. cbn in Hlen. lia. }
    cbn. rewrite Hrec. reflexivity.
  - rewrite pdf_kept by assumption. cbn [str_find].
    assert (Hhead : String.prefix ".pdf" (String c (replace_go ".pdf" ".txt" 0 s))
                    = false).
    { rewrite prefix_cons in Hp |- *. destruct (ascii_dec "." c); [|reflexivity].
      rewrite dotfree_prefix by reflexivity. exact Hp. }
    rewrite Hhead, IH by (cbn in Hlen; lia). reflexivity.
Qed.

Lemma renamed_has_no_pdf (s : string) :
  str_find ".pdf" (str_replace ".pdf" ".txt" s) = None.
Proof. apply (renamed_has_no_pdf_bounded (S (String.length s))). lia. Qed.

Lemma replace_go_absent (old new : string) : forall s : string,
  str_find old s = None -> replace_go old new 0 s = s.
Proof.
  induction s as [|c s IH]; intros H; [reflexivity|].
  cbn [str_find] in H. cbn [replace_go].
  destruct (String.prefix old (String c s)); [discriminate|].
  f_equal. apply IH. now destruct (str_find old s).
Qed.

Lemma rename_absent (s : string) :
  str_find ".pdf" s = None -> str_replace ".pdf" ".txt" s = s.
Proof. apply replace_go_absent. Qed.

Section Tab3More.

Variable convert_pdf_to_ecrs : UploadedFile -> string -> string -> Py string.
Variable fl : Q -> Q.
Variables selected_store invoice_supplier : string.

Local Abbreviation batch :=
  (batch_convert convert_pdf_to_ecrs fl selected_store invoice_supplier).
Local Abbreviation handler :=
  (tab3_batch convert_pdf_to_ecrs fl selected_store invoice_supplier).
Local Abbreviation outcomes :=
  (conversions convert_pdf_to_ecrs selected_store invoice_supplier).

(** X1: a batch over [docs1 ++ docs2] returns the results of a batch over
    [docs1] followed by those of a batch over [docs2] started in the world the
    first one left, and leaves the world of the second. *)
Theorem batch_results_compose (docs1 docs2 : list UploadedFile) (w : World) :
  exists st1 w1 st2 w2 st,
    batch docs1 w = (Returned st1, w1) /\
    batch docs2 w1 = (Returned st2, w2) /\
    batch (docs1 ++ docs2) w = (Returned st, w2) /\
    results st = results st1 ++ results st2.
Proof.
  eexists _, _, _, _, _.
  split; [apply batch_convert_run|]. split; [apply batch_convert_run|].
  split.
  - rewrite batch_convert_run, conversions_app. reflexivity.
  - cbn [results fst snd]. apply zip_with_app. now rewrite conversions_length.
Qed.

(** X4: no entry of the archive has a name in which [".pdf"] occurs. *)
Theorem archive_names_without_pdf (docs : list UploadedFile) (w : World) :
  exists st zip_file w',
    handler docs w = (Returned (st, zip_file), w') /\
    Forall (fun entry => str_find ".pdf" entry.1 = None) zip_file.
Proof.
  eexists _, _, _. split; [apply tab3_batch_run|].
  rewrite make_zip_run. apply Forall_fmap, Forall_forall.
  intros r _. apply renamed_has_no_pdf.
Qed.

(** X5: a document whose name has no [".pdf"] in it, as one with the
    extension in capitals, keeps its name in the archive. *)
Theorem archive_keeps_other_names (docs : list UploadedFile) (w : World) :
  exists st zip_file w',
    handler docs w = (Returned (st, zip_file), w') /\
    forall k d,
      docs !! k = Some d ->
      str_find ".pdf" (name d) = None ->
      exists content, zip_file !! k = Some (name d, content).
Proof.
  eexists _, _, _. split; [apply tab3_batch_run|].
  intros k d Hd Hfind.
  destruct ((outcomes docs w).1 !! k) as [o|] eqn:Ho.
  - pose proof (results_lookup convert_pdf_to_ecrs selected_store
                  invoice_supplier docs w k d o Hd Ho) as Hr.
    assert (Hentry : entry_of d o = (name d, (entry_of d o).2)) by now destruct o.
    rewrite Hentry in Hr. exists (entry_of d o).2.
    rewrite (make_zip_lookup _ _ _ _ Hr), rename_absent by assumption.
    reflexivity.
  - apply lookup_ge_None in Ho. apply lookup_lt_Some in Hd.
    rewrite conversions_length in Ho. lia.
Qed.

Section Bounds.

Hypothesis fl_monotone : forall a b : Q, (a <= b)%Q -> (fl a <= fl b)%Q.
Hypothesis fl_zero : (fl 0 == 0)%Q.
Hypothesis fl_one : (fl 1 == 1)%Q.

(** X2: the progress bar is given one value at its creation and one per
    document, and every one of them lies between 0 and 1, the range that
    [st.progress] accepts for a float. *)
Theorem progress_within_unit (docs : list UploadedFile) (w : World) :
  exists st w',
    batch docs w = (Returned st, w') /\
    length (progress_bar st) = S (length docs) /\
    Forall (fun x => (0 <= x)%Q /\ (x <= 1)%Q) (progress_bar st).
Proof.
  eexists _, _. split; [apply batch_convert_run|]. cbn [progress_bar].
  split; [cbn; now rewrite length_fmap, length_seq|].
  apply Forall_lookup. intros k x Hx.
  apply (progress_lookup fl) in Hx as [Hk ->].
  destruct k as [|k]; [split; [apply Qle_refl|discriminate]|].
  split; [now apply float_quotient_nonneg|].
  unfold float_quotient.
  eapply Qle_trans; [apply fl_monotone, (quotient_le _ (length docs)); lia|].
  apply Qle_lteq. right.
  eapply Qeq_trans; [|exact fl_one].
  apply fl_proper; [assumption|]. apply quotient_full. lia.
Qed.

End Bounds.

End Tab3More.

Lemma progress_within_unit_witness :
  exists st w',
    Sample.batch [Sample.doc1; Sample.doc2; Sample.doc3] Sample.w0
    = (Returned st, w') /\
    length (progress_bar st) = 4 /\
    Forall (fun x => (0 <= x)%Q /\ (x <= 1)%Q) (progress_bar st).
Proof.
  apply (progress_within_unit Sample.strict_convert (fun q => q)
           "STORE001" "Supplier A" (fun a b H => H) (Qeq_refl 0) (Qeq_refl 1)
           [Sample.doc1; Sample.doc2; Sample.doc3] Sample.w0).
Defined.

Lemma archive_keeps_other_names_witness :
  exists st zip_file w',
    Sample.handler [Sample.doc1; Sample2.capitals_doc] Sample.w0
    = (Returned (st, zip_file), w') /\
    exists content, zip_file !! 1 = Some ("INVOICE.PDF", content).
Proof.
  destruct (archive_keeps_other_names Sample.strict_convert (fun q => q)
              "STORE001" "Supplier A" [Sample.doc1; Sample2.capitals_doc]
              Sample.w0)
    as (st & zip_file & w' & Hrun & Hkeep).
  exists st, zip_file, w'. split; [exact Hrun|].
  apply (Hkeep 1 Sample2.capitals_doc); reflexivity.
Defined.

(** ** The batch in demo mode *)

Lemma demo_conversions (docs : list UploadedFile) (store_id supplier_name : string) :
  forall w : World,
    conversions Demo.convert_pdf_to_ecrs store_id supplier_name docs w
    = ((fun _ => Returned Demo.invoice_text) <$> docs,
       {| clock := clock w + length docs |}).
Proof.
  induction docs as [|d docs IH]; intros w.
  - cbn. destruct w. now rewrite Nat.add_0_r.
  - rewrite conversions_cons, demo_convert_run, IH. cbn. do 2 f_equal. lia.
Qed.

(** X3: with the fallback converter a batch over n documents sleeps n seconds
    in all and gives every document the same text as its result; no entry is
    an error entry. *)
Theorem demo_batch (fl : Q -> Q) (store_id supplier_name : string)
    (docs : list UploadedFile) (w : World) :
  exists st,
    batch_convert Demo.convert_pdf_to_ecrs fl store_id supplier_name docs w
    = (Returned st, {| clock := clock w + length docs |}) /\
    results st = (fun d => (name d, Demo.invoice_text)) <$> docs /\
    Forall (fun r => String.prefix "ERROR: " r.2 = false) (results st).
Proof.
  eexists. rewrite batch_convert_run, demo_conversions. cbn [fst snd results].
  split; [reflexivity|].
  assert (H : zip_with entry_of docs ((fun _ => Returned Demo.invoice_text) <$> docs)
              = (fun d => (name d, Demo.invoice_text)) <$> docs).
  { induction docs as [|d docs IH]; [reflexivity|]. cbn. now rewrite IH. }
  rewrite H. split; [reflexivity|].
  apply Forall_fmap, Forall_forall. intros d _. reflexivity.
Qed.

(** ** The single invoice and its preview *)

Lemma length_append (s1 s2 : string) :
  String.length (s1 +:+ s2) = String.length s1 + String.length s2.
Proof.
  induction s1 as [|a s1 IH]; [reflexivity|].
  change (String a s1 +:+ s2) with (String a (s1 +:+ s2)).
  cbn [String.length]. now rewrite IH.
Qed.

Lemma length_substring_0 (n : nat) : forall s : string,
  String.length (String.substring 0 n s) = Nat.min n (String.length s).
Proof.
  induction n as [|n IH]; intros [|a s]; try reflexivity.
  cbn [String.substring String.length]. now rewrite IH.
Qed.

Lemma substring_0_append (n : nat) : forall s t : string,
  n <= String.length s ->
  String.substring 0 n (String.substring 0 n s +:+ t) = String.substring 0 n s.
Proof.
  induction n as [|n IH]; intros [|a s] t Hn; cbn [String.length] in Hn; try lia.
  - cbn [String.substring]. now destruct (EmptyString +:+ t).
  - cbn [String.substring]. now destruct (EmptyString +:+ t).
  - cbn [String.substring].
    change (String a (String.substring 0 n s) +:+ t)
      with (String a (String.substring 0 n s +:+ t)).
    cbn [String.substring]. rewrite IH by lia. reflexivity.
Qed.

(** X6: the preview of a text of more than 500 characters is 503 characters
    long, a shorter text is previewed as long as it is; in both cases the
    preview starts with the first 500 characters of the text. *)
Theorem preview_bounds (txt_content : string) :
  String.length (preview txt_content)
  = (if (500 <? String.length txt_content)%nat then 503
     else String.length txt_content) /\
  String.length (preview txt_content) <= 503 /\
  String.substring 0 500 (preview txt_content)
  = String.substring 0 500 txt_content.
Proof.
  unfold preview.
  destruct (Nat.ltb_spec 500 (String.length txt_content)) as [Hlong|Hshort].
  - rewrite length_append, length_substring_0.
    change (String.length "...") with 3.
    rewrite Nat.min_l by lia.
    split; [reflexivity|]. split; [lia|].
    apply substring_0_append. lia.
  - split; [reflexivity|]. split; [lia|reflexivity].
Qed.

Section Tab3SingleFacts.

Variable convert_pdf_to_ecrs : UploadedFile -> string -> string -> Py string.
Variable fl : Q -> Q.
Variables selected_store invoice_supplier : string.

(** X7: the single-invoice handler and a batch over that one document agree,
    whatever the converter does.  Both return and leave the same world; when
    the handler offers a text for download, whole and with its preview, the
    batch holds that text as the document's entry; when the handler shows
    ["Conversion failed: "] with an exception's text, the batch holds
    ["ERROR: "] with the same text. *)
Theorem single_agrees_with_batch (uploaded_pdf : UploadedFile) (w : World) :
  exists shown st w',
    tab3_single convert_pdf_to_ecrs selected_store invoice_supplier uploaded_pdf w
    = (Returned shown, w') /\
    batch_convert convert_pdf_to_ecrs fl selected_store invoice_supplier
      [uploaded_pdf] w
    = (Returned st, w') /\
    match shown with
    | InvoiceConverted preview_text download_data =>
        preview_text = preview download_data /\
        results st = [(name uploaded_pdf, download_data)]
    | InvoiceFailed message =>
        exists e,
          message = "Conversion failed: " +:+ str e /\
          results st = [(name uploaded_pdf, "ERROR: " +:+ str e)]
    end.
Proof.
  unfold tab3_single, try_except, bind.
  destruct (convert_pdf_to_ecrs uploaded_pdf selected_store invoice_supplier w)
    as [[txt_content|e] w1] eqn:Hconv;
    eexists _, _, _; (split; [reflexivity|]);
    rewrite batch_convert_run, conversions_cons, Hconv; cbn.
  - split; [reflexivity|]. split; reflexivity.
  - split; [reflexivity|]. exists e. split; reflexivity.
Qed.

End Tab3SingleFacts.

(** ** Tab 2: the stored mapping *)

Lemma size_list_to_set_le (l : list string) :
  size (list_to_set l : gset string) <= length l.
Proof.
  induction l as [|a l IH]; [reflexivity|].
  cbn [list_to_set length].
  destruct (decide (a ∈ (list_to_set l : gset string))) as [Hin|Hout].
  - rewrite (subseteq_union_1_L {[a]}) by (now apply singleton_subseteq_l).
    lia.
  - rewrite size_union by set_solver. rewrite size_singleton. lia.
Qed.

Section Tab2More.

Variable read_excel : UploadedFile -> Py DataFrame.
Variable selectbox : string -> MapTarget.

(** X8: the keys of the mapping built from a sheet are exactly the columns of
    the sheet, each with the field chosen for it; a name that is no column has
    no entry, and the mapping has no more entries than the sheet has
    columns. *)
Theorem mapping_keys_are_columns (cols : list string) :
  dom (build_mapping selectbox cols) = list_to_set cols /\
  (forall c, c ∈ cols -> build_mapping selectbox cols !! c = Some (selectbox c)) /\
  (forall c, c ∉ cols -> build_mapping selectbox cols !! c = None) /\
  size (build_mapping selectbox cols) <= length cols.
Proof.
  assert (Hlookup : forall c,
            build_mapping selectbox cols !! c
            = if decide (c ∈ cols) then Some (selectbox c) else None).
  { intros c. unfold build_mapping. rewrite fold_mapping_lookup.
    destruct (decide (c ∈ cols)); [reflexivity|apply lookup_empty]. }
  assert (Hdom : dom (build_mapping selectbox cols) = list_to_set cols).
  { apply set_eq. intros c.
    rewrite elem_of_dom, elem_of_list_to_set, Hlookup.
    destruct (decide (c ∈ cols)) as [Hin|Hout].
    - split; [auto|]. intros _. eexists. reflexivity.
    - split; [intros [v Hv]; discriminate|contradiction]. }
  split; [exact Hdom|].
  split; [intros c Hc; now rewrite Hlookup, decide_True|].
  split; [intros c Hc; now rewrite Hlookup, decide_False|].
  rewrite <- size_dom, Hdom. apply size_list_to_set_le.
Qed.


End Tab2More.



Lemma mapping_keys_are_columns_witness :
  build_mapping Sample.choose_distinct ["Item"; "Qty"; "Cost"] !! "Qty"
  = Some Quantity /\
  build_mapping Sample.choose_distinct ["Item"; "Qty"; "Cost"] !! "SKU" = None.
Proof.
  destruct (mapping_keys_are_columns Sample.choose_distinct ["Item"; "Qty"; "Cost"])
    as (_ & Hin & Hout & _).
  split.
  - apply (Hin "Qty"). apply (bool_decide_unpack _). vm_compute. exact I.
  - apply (Hout "SKU"). apply (bool_decide_unpack _). vm_compute. exact I.
Defined.

(** ** Tab 1: the activity log *)

Section Tab1Facts.

Variable auto_fill_supplier_order : UploadedFile -> string -> string -> Py string.
Variable str_datetime : nat -> string.
Variable strftime : nat -> string.

Local Abbreviation start :=
  (tab1_start auto_fill_supplier_order str_datetime strftime).

(** X10: the "Start Auto-Fill Process" handler never raises, and the activity
    log only grows at its end: the entries it had stay where they were, at
    most one is added, and a log that exists is not removed. *)
Theorem activity_log_append_only
    (uploaded_file : option UploadedFile) (selected_supplier selected_store : string)
    (activity_log : option (list Activity)) (w : World) :
  exists shown activity_log' w',
    start uploaded_file selected_supplier selected_store activity_log w
    = (Returned (shown, activity_log'), w') /\
    default [] activity_log `prefix_of` default [] activity_log' /\
    length (default [] activity_log') <= S (length (default [] activity_log)) /\
    (is_Some activity_log -> is_Some activity_log').
Proof.
  unfold tab1_start.
  destruct uploaded_file as [excel_file|];
    [destruct (negb (String.eqb selected_supplier EmptyString))|].
  - unfold try_except, bind, now.
    destruct (auto_fill_supplier_order excel_file selected_supplier selected_store w)
      as [[result|e] w1]; eexists _, _, _; (split; [reflexivity|]).
    + unfold log_activity. destruct activity_log as [log|]; simpl.
      * split; [now apply prefix_app_r|]. rewrite length_app. simpl.
        split; [lia|]. intros _. eexists. reflexivity.
      * split; [apply prefix_nil|]. split; [lia|]. intros [? [=]].
    + split; [reflexivity|]. split; [lia|auto].
  - eexists _, _, _. split; [reflexivity|]. split; [reflexivity|].
    split; [lia|auto].
  - eexists _, _, _. split; [reflexivity|]. split; [reflexivity|].
    split; [lia|auto].
Qed.

(** X11: when a file is uploaded, a supplier is selected and the order filler
    returns, the handler shows the success with a three-line confirmation and
    appends one entry to the log (created if missing) that records the task
    ["order_fill"], the supplier, the store, the file's name and the time read
    after the filler returned. *)
Theorem order_logged
    (excel_file : UploadedFile) (selected_supplier selected_store : string)
    (activity_log : option (list Activity)) (w w1 : World) (result : string) :
  selected_supplier <> EmptyString ->
  auto_fill_supplier_order excel_file selected_supplier selected_store w
  = (Returned result, w1) ->
  start (Some excel_file) selected_supplier selected_store activity_log w
  = (Returned
       (OrderProcessed
          ("Order confirmation for " +:+ selected_supplier +:+ nl
           +:+ "Store: " +:+ selected_store +:+ nl
           +:+ "Timestamp: " +:+ str_datetime (clock w1))
          ("order_confirmation_" +:+ strftime (clock w1) +:+ ".txt"),
        Some (default [] activity_log
              ++ [{| timestamp := clock w1;
                     task := "order_fill";
                     supplier := selected_supplier;
                     store := selected_store;
                     file := name excel_file |}])),
     w1).
Proof.
  intros Hsup Hfill. unfold tab1_start.
  apply String.eqb_neq in Hsup. rewrite Hsup. cbn [negb].
  unfold try_except, bind, now. rewrite Hfill.
  unfold log_activity. now destruct activity_log.
Qed.

(** X12: without an upload, without a supplier, or when the order filler
    raises, nothing is logged: the log is returned as it was, missing if it was
    missing; the first two show the warning and leave the world alone, the
    last shows the exception's message. *)
Theorem failed_order_not_logged
    (uploaded_file : option UploadedFile) (selected_supplier selected_store : string)
    (activity_log : option (list Activity)) (w : World) :
  (uploaded_file = None \/ selected_supplier = EmptyString ->
   start uploaded_file selected_supplier selected_store activity_log w
   = (Returned (PleaseUploadAndSelect, activity_log), w)) /\
  (forall excel_file e w1,
      uploaded_file = Some excel_file ->
      selected_supplier <> EmptyString ->
      auto_fill_supplier_order excel_file selected_supplier selected_store w
      = (Raised e, w1) ->
      start uploaded_file selected_supplier selected_store activity_log w
      = (Returned (ProcessingFailed (str e), activity_log), w1)).
Proof.
  split.
  - intros [-> | ->]; [reflexivity|]. now destruct uploaded_file.
  - intros excel_file e w1 -> Hsup Hfill. unfold tab1_start.
    apply String.eqb_neq in Hsup. rewrite Hsup. cbn [negb].
    unfold try_except, bind. now rewrite Hfill.
Qed.

End Tab1Facts.

Lemma order_logged_witness :
  tab1_start Demo.auto_fill_supplier_order Sample2.show_seconds
    Sample2.show_seconds (Some Sample2.order_xlsx) "supplier_a" "STORE001"
    (Some [Sample2.earlier]) Sample.w0
  = (Returned
       (OrderProcessed
          ("Order confirmation for supplier_a" +:+ nl
           +:+ "Store: STORE001" +:+ nl +:+ "Timestamp: later")
          "order_confirmation_later.txt",
        Some [Sample2.earlier;
              {| timestamp := 1; task := "order_fill"; supplier := "supplier_a";
                 store := "STORE001"; file := "order.xlsx" |}]),
     {| clock := 1 |}).
Proof.
  apply (order_logged Demo.auto_fill_supplier_order Sample2.show_seconds
           Sample2.show_seconds Sample2.order_xlsx "supplier_a" "STORE001"
           (Some [Sample2.earlier]) Sample.w0 {| clock := 1 |}
           "Order for supplier_a (Store: STORE001) processed successfully.").
  - discriminate.
  - reflexivity.
Defined.

Lemma failed_order_not_logged_witness :
  tab1_start Sample2.strict_fill Sample2.show_seconds Sample2.show_seconds
    None "supplier_a" "STORE001" None Sample.w0
  = (Returned (PleaseUploadAndSelect, None), Sample.w0) /\
  tab1_start Sample2.strict_fill Sample2.show_seconds Sample2.show_seconds
    (Some Sample2.empty_xlsx) "supplier_a" "STORE001" (Some [Sample2.earlier])
    Sample.w0
  = (Returned (ProcessingFailed "empty order file", Some [Sample2.earlier]),
     Sample.w0).
Proof.
  split.
  - apply (failed_order_not_logged Sample2.strict_fill Sample2.show_seconds
             Sample2.show_seconds None "supplier_a" "STORE001" None Sample.w0).
    left. reflexivity.
  - apply (proj2 (failed_order_not_logged Sample2.strict_fill
                    Sample2.show_seconds Sample2.show_seconds
                    (Some Sample2.empty_xlsx) "supplier_a" "STORE001"
                    (Some [Sample2.earlier]) Sample.w0)
             Sample2.empty_xlsx
             {| exc_type := "ValueError"; str := "empty order file" |}
             Sample.w0).
    + reflexivity.
    + discriminate.
    + reflexivity.
Defined.

(** ** Session state and the store selector *)

Lemma init_key_lookup (key : string) (default : StateValue)
    (ss : gmap string StateValue) (k : string) :
  init_key key default ss !! k
  = match ss !! k with
    | Some v => Some v
    | None => if decide (key = k) then Some default else None
    end.
Proof.
  unfold init_key. destruct (ss !! key) as [v|] eqn:Hkey.
  - destruct (ss !! k) as [v'|] eqn:Hk; [reflexivity|].
    destruct (decide (key = k)) as [->|]; [congruence|reflexivity].
  - destruct (decide (key = k)) as [->|Hne].
    + now rewrite lookup_insert_eq, Hkey.
    + rewrite lookup_insert_ne by assumption. now destruct (ss !! k).
Qed.

Lemma init_session_lookup (ss : gmap string StateValue) (k : string) :
  init_session ss !! k
  = match ss !! k with
    | Some v => Some v
    | None =>
        if decide ("current_task" = k) then Some VNone
        else if decide ("processing_step" = k) then Some (VInt 0)
        else if decide ("uploaded_files" = k) then Some (VFiles [])
        else None
    end.
Proof.
  unfold init_session. rewrite !init_key_lookup.
  destruct (ss !! k); [reflexivity|].
  destruct (decide ("current_task" = k)); [reflexivity|].
  destruct (decide ("processing_step" = k)); reflexivity.
Qed.

(** X13: initialising the session keeps every value that is already stored,
    binds the three keys [current_task], [processing_step] and
    [uploaded_files], touches no other key, and changes nothing when run
    again, as on every rerun of the script. *)
Theorem init_session_keeps_and_binds (ss : gmap string StateValue) :
  (forall k v, ss !! k = Some v -> init_session ss !! k = Some v) /\
  is_Some (init_session ss !! "current_task") /\
  is_Some (init_session ss !! "processing_step") /\
  is_Some (init_session ss !! "uploaded_files") /\
  (forall k,
      k <> "current_task" -> k <> "processing_step" -> k <> "uploaded_files" ->
      init_session ss !! k = ss !! k) /\
  init_session (init_session ss) = init_session ss.
Proof.
  pose proof (init_session_lookup ss) as Hl.
  split; [intros k v Hk; now rewrite Hl, Hk|].
  split; [rewrite Hl; destruct (ss !! "current_task"); eauto|].
  split; [rewrite Hl; destruct (ss !! "processing_step"); eauto|].
  split; [rewrite Hl; destruct (ss !! "uploaded_files"); eauto|].
  split.
  - intros k H1 H2 H3. rewrite Hl. destruct (ss !! k); [reflexivity|].
    rewrite !decide_False by congruence. reflexivity.
  - apply map_eq. intros k.
    unfold init_session at 1. rewrite !init_key_lookup.
    destruct (init_session ss !! k) as [v|] eqn:Hk; [reflexivity|].
    rewrite Hl in Hk. destruct (ss !! k); [discriminate|].
    destruct (decide ("current_task" = k)); [discriminate|].
    destruct (decide ("processing_step" = k)); [discriminate|].
    destruct (decide ("uploaded_files" = k)); [discriminate|reflexivity].
Qed.

Lemma init_session_keeps_and_binds_witness :
  init_session {[ "current_task" := VStr "reports" ]} !! "current_task"
  = Some (VStr "reports") /\
  init_session {[ "current_task" := VStr "reports" ]} !! "activity_log" = None.
Proof.
  destruct (init_session_keeps_and_binds {[ "current_task" := VStr "reports" ]})
    as (Hkeep & _ & _ & _ & Hother & _).
  split.
  - apply Hkeep. vm_compute. reflexivity.
  - rewrite Hother by discriminate. vm_compute. reflexivity.
Defined.

(** X14: the quick-action buttons change no key of the session but
    [current_task], and the task they set is still there after the session is
    initialised again on the next run of the script. *)
Theorem quick_actions_frame (process_all_pending view_reports : bool)
    (ss : gmap string StateValue) :
  (forall k, k <> "current_task" ->
             quick_actions process_all_pending view_reports ss !! k = ss !! k) /\
  (process_all_pending || view_reports = true ->
   init_session (quick_actions process_all_pending view_reports ss)
     !! "current_task"
   = Some (VStr (if view_reports then "reports" else "batch_process"))).
Proof.
  split.
  - intros k Hk. unfold quick_actions.
    destruct process_all_pending, view_reports;
      rewrite ?lookup_insert_ne by congruence; reflexivity.
  - intros Hpressed.
    rewrite init_session_lookup. unfold quick_actions.
    destruct process_all_pending, view_reports; try discriminate;
      now rewrite lookup_insert_eq.
Qed.

Lemma quick_actions_frame_witness :
  quick_actions true false (init_session ∅) !! "processing_step"
  = init_session ∅ !! "processing_step" /\
  init_session (quick_actions true false (init_session ∅)) !! "current_task"
  = Some (VStr "batch_process").
Proof.
  destruct (quick_actions_frame true false (init_session ∅)) as [Hframe Hkept].
  split; [apply Hframe; discriminate|apply Hkept; reflexivity].
Defined.

Lemma getitem_present (d : Dict) (key : string) (w : World) :
  key ∈ dict_keys d ->
  exists v, getitem d key w = (Returned v, w) /\ (key, v) ∈ d.
Proof.
  unfold dict_keys. induction d as [|[k v] d IH]; intros Hin.
  - now apply elem_of_nil in Hin.
  - cbn [getitem]. destruct (String.eqb_spec k key) as [->|Hne].
    + exists v. split; [reflexivity|left].
    + cbn in Hin. apply elem_of_cons in Hin as [Heq|Hin]; [congruence|].
      destruct (IH Hin) as (v' & Hget & Hv'). exists v'.
      split; [exact Hget|now right].
Qed.

Lemma getitem_missing (d : Dict) (key : string) (w : World) :
  key ∉ dict_keys d -> getitem d key w = (Raised (KeyError key), w).
Proof.
  unfold dict_keys. induction d as [|[k v] d IH]; intros Hout; [reflexivity|].
  cbn [getitem]. cbn in Hout. apply not_elem_of_cons in Hout as [Hne Hout].
  destruct (String.eqb_spec k key) as [->|_]; [congruence|]. now apply IH.
Qed.

Lemma option_labels_render (d : Dict) (w : World) : forall options : list string,
  (forall x, x ∈ options -> x ∈ dict_keys d) ->
  exists labels,
    option_labels (store_label d) options w = (Returned labels, w) /\
    length labels = length options.
Proof.
  induction options as [|x options IH]; intros Hopts.
  - exists []. split; reflexivity.
  - destruct (getitem_present d x w) as (v & Hget & _);
      [apply Hopts; left|].
    destruct IH as (labels & Hrun & Hlen);
      [intros y Hy; apply Hopts; now right|].
    exists ((x +:+ " - " +:+ v) :: labels). split; [|cbn; now rewrite Hlen].
    cbn [option_labels]. unfold bind at 1. unfold store_label at 1.
    unfold bind at 1. rewrite Hget. unfold ret at 1. unfold bind.
    rewrite Hrun. reflexivity.
Qed.

(** X15: the store selector renders a label for every key of the [stores]
    dict without a [KeyError], whatever the dict holds; formatting a name that
    is no key of it raises [KeyError] with that name. *)
Theorem store_selectbox_renders (d : Dict) :
  (forall w, exists labels,
      store_selectbox d w = (Returned labels, w) /\
      length labels = length d) /\
  (forall x w, x ∈ dict_keys d ->
      exists v, (x, v) ∈ d /\ store_label d x w = (Returned (x +:+ " - " +:+ v), w)) /\
  (forall x w, x ∉ dict_keys d -> store_label d x w = (Raised (KeyError x), w)).
Proof.
  split; [|split].
  - intros w. destruct (option_labels_render d w (dict_keys d)) as (labels & H & Hlen);
      [auto|].
    exists labels. split; [exact H|]. rewrite Hlen. apply length_fmap.
  - intros x w Hx. destruct (getitem_present d x w Hx) as (v & Hget & Hv).
    exists v. split; [exact Hv|]. unfold store_label, bind. now rewrite Hget.
  - intros x w Hx. unfold store_label, bind. now rewrite getitem_missing.
Qed.

Lemma store_selectbox_renders_witness :
  (exists v, (("STORE003" : string), v) ∈ stores /\
     store_label stores "STORE003" Sample.w0
     = (Returned ("STORE003" +:+ " - " +:+ v), Sample.w0)) /\
  store_label stores "STORE007" Sample.w0
  = (Raised (KeyError "STORE007"), Sample.w0).
Proof.
  destruct (store_selectbox_renders stores) as (_ & Hkey & Hmissing).
  split.
  - apply Hkey. apply (bool_decide_unpack _). vm_compute. exact I.
  - apply Hmissing. apply (bool_decide_unpack _). vm_compute. exact I.
Defined.

Example store_selectbox_labels :
  store_selectbox stores Sample.w0
  = (Returned
       ["STORE001 - Main Store"; "STORE002 - North Branch";
        "STORE003 - South Branch"; "STORE004 - East Branch";
        "STORE005 - West Branch"; "STORE006 - Central Branch"],
     Sample.w0).
Proof. reflexivity. Qed.
